(** * The edge-to-cloud synchronization agent (SyncWorker)

    A shallow embedding of the C# worker service [SyncWorker]: identity
    resolution at start-up, the polling loop of [ExecuteAsync], the
    watermark client [GetSyncStatus], the batch extractor
    [FetchBatchData] and the upload transport [UploadData].

    The worker talks to four outside parties: the configuration file on
    disk, the cloud API, the local SQL Server and the console.  Each of
    them is an explicit input (what the party answers) and every effect
    of the worker is an [Event] of its trace.  The base address of the
    cloud API is fixed when the worker is constructed and is left out of
    the events. *)

From Stdlib Require Import ZArith String Ascii.
From stdpp Require Import prelude strings sorting gmap.

Local Open Scope string_scope.
Local Open Scope list_scope.
Local Open Scope Z_scope.

(** ** Primitive types *)

(** C# [long]; arithmetic is unchecked and wraps around. *)
Definition wrap64 (z : Z) : Z := (z + 2 ^ 63) `mod` 2 ^ 64 - 2 ^ 63.

(** [DateTime] columns, as seconds since the Unix epoch. *)
Definition DateTime : Type := Z.

(** The literal '2018-09-11' of the first-run session query. *)
Definition fallbackDate : DateTime := 1536624000.

(** Every bounded query is a [SELECT TOP 2000]. *)
Definition TOP : nat := 2000.

(** ** Transfer records

    Each record keeps the key columns the queries and the worker look
    at; [Modified]-style audit columns and the sensor readings are copied
    column by column by the mapping helpers and play no part here. *)

Module DelproBasicAnimal.
Record t : Type := mk {
  OID : Z;
  Number : option Z;
  Name : option string;
  ExitDate : option DateTime
}.
End DelproBasicAnimal.

(** Modelled from the spec: the declarations of [DelproHistoryAnimal] and
    [MapHistoryAnimal] are missing from the sources.  The spec has an
    animal sub-record keyed by a just-extracted animal's identifier; the
    query names that key [ReferenceID].  Every other column is carried as
    one opaque value. *)
Module DelproHistoryAnimal.
Record t : Type := mk {
  ReferenceID : option Z;
  Columns : string
}.
End DelproHistoryAnimal.

Module DelproAnimalsLactationsSummary.
Record t : Type := mk {
  OID : Z;
  Animal : option Z;
  LactationNumber : option Z
}.
End DelproAnimalsLactationsSummary.

Module DelproSessionsMilkYield.
Record t : Type := mk {
  SessionNo : string;
  BeginTime : option DateTime;
  BasicAnimal : option Z;
  OID : option Z
}.
End DelproSessionsMilkYield.

Module DelproVoluntarySessionsMilkYield.
Record t : Type := mk {
  OID : Z;
  MilkType : option Z
}.
End DelproVoluntarySessionsMilkYield.

Module DelproHistoryMilkDiversionInfo.
Record t : Type := mk {
  OID : Z;
  Animal : option Z;
  DivertReason : option Z
}.
End DelproHistoryMilkDiversionInfo.

Record IngestPayload : Type := mkIngestPayload {
  farm_id : string;
  basic_animals : list DelproBasicAnimal.t;
  lactations_summary : list DelproAnimalsLactationsSummary.t;
  sessions_milk_yield : list DelproSessionsMilkYield.t;
  voluntary_sessions_milk_yield : list DelproVoluntarySessionsMilkYield.t;
  history_milk_diversion_info : list DelproHistoryMilkDiversionInfo.t;
  history_animals : list DelproHistoryAnimal.t
}.

Record SyncStatusResponse : Type := mkSyncStatusResponse {
  last_oid : Z;
  last_animal_oid : Z;
  last_lactation_oid : Z;
  last_history_milk_diversion_oid : Z
}.

Record AgentConfig : Type := mkAgentConfig {
  FarmId : option string;
  DatabaseName : option string;
  PollingIntervalSeconds : Z
}.

(** [new AgentConfig { FarmId = farmId }]: the other two properties keep
    their initialisers. *)
Definition new_AgentConfig (farmId : string) : AgentConfig :=
  {| FarmId := Some farmId; DatabaseName := Some "DelPro";
     PollingIntervalSeconds := 1800 |}.

(** ** Traces *)

Inductive LogLevel : Type := Information | Warning | Error.

Inductive Event : Type :=
| Log (level : LogLevel) (message : string)
| HttpGetStatus (farmId : string)
| HttpPostIngest (payload : IngestPayload)
| HttpPostRegister (farmName : string)
| Delay (seconds : Z)
| DelayCancelled (seconds : Z)
| FileWriteConfig (config : AgentConfig)
| ConsoleReadLine.

Definition is_ingest_post (e : Event) : bool :=
  match e with HttpPostIngest _ => true | _ => false end.

Definition is_delay (e : Event) : bool :=
  match e with Delay _ | DelayCancelled _ => true | _ => false end.

Definition is_file_write (e : Event) : bool :=
  match e with FileWriteConfig _ => true | _ => false end.

Definition is_register_post (e : Event) : bool :=
  match e with HttpPostRegister _ => true | _ => false end.

Definition is_status_get (e : Event) : bool :=
  match e with HttpGetStatus _ => true | _ => false end.

Definition is_log (e : Event) : bool :=
  match e with Log _ _ => true | _ => false end.


Definition count_events (p : Event -> bool) (tr : list Event) : nat :=
  length (List.filter p tr).

(** ** Strings *)

Definition IsNullOrEmpty (s : option string) : bool :=
  match s with
  | None => true
  | Some s' => if decide (s' = "") then true else false
  end.

(** [char.IsWhiteSpace] on the Latin-1 range. *)
Definition IsWhiteSpace (c : ascii) : bool :=
  let n := N_of_ascii c in
  ((9 <=? n) && (n <=? 13) || (n =? 32) || (n =? 133) || (n =? 160))%N.

Fixpoint all_white (s : string) : bool :=
  match s with
  | EmptyString => true
  | String c s' => IsWhiteSpace c && all_white s'
  end.

Definition IsNullOrWhiteSpace (s : option string) : bool :=
  match s with
  | None => true
  | Some s' => all_white s'
  end.

(** [s.Contains(pat)], ordinal. *)
Fixpoint Contains (s pat : string) : bool :=
  String.prefix pat s ||
  match s with
  | EmptyString => false
  | String _ s' => Contains s' pat
  end.

(** ** The local SQL Server

    A table the server cannot read (absent table, missing schema) makes
    every command over it raise when it is executed: [None].  A reader
    loop [while (r.Read()) { list.Add(Map(r)); }] can also raise in the
    middle of a result (lost connection, a column value the mapping
    helper cannot convert): [Some k] in [ReaderFaults] makes the step
    for the row at index [k] raise, after [k] rows were added. *)

Record Database : Type := mkDatabase {
  BasicAnimal : option (list DelproBasicAnimal.t);
  HistoryAnimal : option (list DelproHistoryAnimal.t);
  AnimalLactationSummary : option (list DelproAnimalsLactationsSummary.t);
  SessionMilkYield : option (list DelproSessionsMilkYield.t);
  VoluntarySessionMilkYield : option (list DelproVoluntarySessionsMilkYield.t);
  HistoryMilkDiversionInfo : option (list DelproHistoryMilkDiversionInfo.t)
}.

Record ReaderFaults : Type := mkReaderFaults {
  fault_animals : option nat;
  fault_history : option nat;
  fault_lactations : option nat;
  fault_sessions : option nat;
  fault_voluntary : option nat;
  fault_diversions : option nat
}.

Record SqlServer : Type := mkSqlServer {
  can_open : string -> bool;
  databases : gmap string Database;
  reader_faults : ReaderFaults
}.

(** [using var r = cmd.ExecuteReader(); while (r.Read()) { xs.Add(Map(r)); }]
    inside a [try]: the rows that reached the list, and whether control
    left through the [catch]. *)
Definition run_reader {A : Type} (fault : option nat) (cmd : option (list A))
  : list A * bool :=
  match cmd with
  | None => ([], true)
  | Some result =>
      match fault with
      | Some k =>
          if decide (k < length result)%nat then (take k result, true)
          else (result, false)
      | None => (result, false)
      end
  end.

(** *** SQL fragments *)

(** [ORDER BY key ASC]; SQL Server sorts NULL before every value.  Rows
    with equal keys come out in one fixed order, the merge sort's, where
    SQL leaves their order open. *)
Definition null_first_le (x y : option Z) : Prop :=
  match x, y with
  | None, _ => True
  | Some _, None => False
  | Some a, Some b => a ≤ b
  end.

#[global] Instance null_first_le_dec x y : Decision (null_first_le x y).
Proof. destruct x, y; simpl; apply _. Defined.

#[global] Instance null_first_le_total : Total null_first_le.
Proof. intros [a|] [b|]; simpl; auto. destruct (Z.le_ge_cases a b); auto. Qed.

#[global] Instance null_first_le_trans : Transitive null_first_le.
Proof. intros [a|] [b|] [c|]; simpl; auto; try tauto. apply Z.le_trans. Qed.

Definition by_key {A : Type} (key : A -> option Z) : relation A :=
  λ a b, null_first_le (key a) (key b).

#[global] Instance by_key_dec {A : Type} (key : A -> option Z) (a b : A) :
  Decision (by_key key a b).
Proof. unfold by_key. apply _. Defined.

#[global] Instance by_key_total {A : Type} (key : A -> option Z) : Total (by_key key).
Proof. intros a b. apply null_first_le_total. Qed.

#[global] Instance by_key_trans {A : Type} (key : A -> option Z) : Transitive (by_key key).
Proof. intros a b c. apply null_first_le_trans. Qed.

Definition ORDER_BY {A : Type} (key : A -> option Z) (l : list A) : list A :=
  merge_sort (by_key key) l.

(** [(ExitDate IS NULL OR ExitDate > '{oneYearAgo}')] *)
Definition still_in_herd (oneYearAgo : DateTime) (a : DelproBasicAnimal.t) : Prop :=
  match DelproBasicAnimal.ExitDate a with
  | None => True
  | Some d => oneYearAgo < d
  end.

#[global] Instance still_in_herd_dec c a : Decision (still_in_herd c a).
Proof. unfold still_in_herd. destruct (DelproBasicAnimal.ExitDate a); apply _. Defined.

(** [col > value] on a nullable column: NULL satisfies no comparison. *)
Definition gt_null (col : option Z) (v : Z) : Prop :=
  match col with
  | None => False
  | Some c => v < c
  end.

#[global] Instance gt_null_dec col v : Decision (gt_null col v).
Proof. destruct col; simpl; apply _. Defined.

(** [col IN (v1, ..., vn)] on a nullable column. *)
Definition in_null (col : option Z) (vs : list Z) : Prop :=
  match col with
  | None => False
  | Some c => c ∈ vs
  end.

#[global] Instance in_null_dec col vs : Decision (in_null col vs).
Proof. destruct col; simpl; apply _. Defined.

(** The rows of [L JOIN A ON L.Animal = A.OID WHERE ...]: one copy of a
    lactation for every animal row it joins with. *)
Definition join_in_herd (oneYearAgo : DateTime) (lastLactationOid : Z)
    (ls : list DelproAnimalsLactationsSummary.t) (animals : list DelproBasicAnimal.t)
  : list DelproAnimalsLactationsSummary.t :=
  l ← ls;
  a ← animals;
  if decide (DelproAnimalsLactationsSummary.Animal l = Some (DelproBasicAnimal.OID a)
             ∧ still_in_herd oneYearAgo a
             ∧ lastLactationOid < DelproAnimalsLactationsSummary.OID l)
  then [l] else [].

Section Queries.
Variable db : option Database.
Variable oneYearAgo : DateTime.

(** SELECT TOP 2000 * FROM BasicAnimal
    WHERE (ExitDate IS NULL OR ExitDate > oneYearAgo) AND OID > @LastAnimalOID
    ORDER BY OID ASC *)
Definition sqlAnimals (lastAnimalOid : Z) : option (list DelproBasicAnimal.t) :=
  t ← db ≫= BasicAnimal;
  Some (take TOP
    (ORDER_BY (λ a, Some (DelproBasicAnimal.OID a))
      (filter (λ a, still_in_herd oneYearAgo a ∧ lastAnimalOid < DelproBasicAnimal.OID a) t))).

(** SELECT * FROM HistoryAnimal WHERE ReferenceID IN (oids) *)
Definition sqlHistory (newOids : list Z) : option (list DelproHistoryAnimal.t) :=
  t ← db ≫= HistoryAnimal;
  Some (filter (λ h, in_null (DelproHistoryAnimal.ReferenceID h) newOids) t).

(** SELECT TOP 2000 L.* FROM AnimalLactationSummary L
    JOIN BasicAnimal A ON L.Animal = A.OID
    WHERE (A.ExitDate IS NULL OR A.ExitDate > oneYearAgo) AND L.OID > @LastLactationOID
    ORDER BY L.OID ASC *)
Definition sqlLact (lastLactationOid : Z)
  : option (list DelproAnimalsLactationsSummary.t) :=
  ls ← db ≫= AnimalLactationSummary;
  animals ← db ≫= BasicAnimal;
  Some (take TOP
    (ORDER_BY (λ l, Some (DelproAnimalsLactationsSummary.OID l))
      (join_in_herd oneYearAgo lastLactationOid ls animals))).

(** SELECT TOP 1 1 FROM SessionMilkYield WHERE BeginTime > oneYearAgo,
    through ExecuteScalar: is there a row? *)
Definition checkSql : option bool :=
  t ← db ≫= SessionMilkYield;
  Some (bool_decide
    (filter (λ s, gt_null (DelproSessionsMilkYield.BeginTime s) oneYearAgo) t ≠ [])).

(** SELECT TOP 2000 * FROM SessionMilkYield WHERE BeginTime > startDate
    ORDER BY OID ASC *)
Definition sqlSessions_first_run (startDate : DateTime)
  : option (list DelproSessionsMilkYield.t) :=
  t ← db ≫= SessionMilkYield;
  Some (take TOP
    (ORDER_BY DelproSessionsMilkYield.OID
      (filter (λ s, gt_null (DelproSessionsMilkYield.BeginTime s) startDate) t))).

(** SELECT TOP 2000 * FROM SessionMilkYield WHERE OID > @LastSessionOID
    ORDER BY OID ASC *)
Definition sqlSessions_incremental (lastSessionOid : Z)
  : option (list DelproSessionsMilkYield.t) :=
  t ← db ≫= SessionMilkYield;
  Some (take TOP
    (ORDER_BY DelproSessionsMilkYield.OID
      (filter (λ s, gt_null (DelproSessionsMilkYield.OID s) lastSessionOid) t))).

(** SELECT * FROM VoluntarySessionMilkYield
    WHERE OID >= @MinOID AND OID <= @MaxOID ORDER BY OID ASC *)
Definition sqlVoluntary (minOid maxOid : Z)
  : option (list DelproVoluntarySessionsMilkYield.t) :=
  t ← db ≫= VoluntarySessionMilkYield;
  Some (ORDER_BY (λ v, Some (DelproVoluntarySessionsMilkYield.OID v))
    (filter (λ v, minOid ≤ DelproVoluntarySessionsMilkYield.OID v
                  ∧ DelproVoluntarySessionsMilkYield.OID v ≤ maxOid) t)).

(** SELECT TOP 2000 * FROM HistoryMilkDiversionInfo
    WHERE OID > @LastDiversionOID ORDER BY OID ASC *)
Definition sqlDiversion (lastDiversionOid : Z)
  : option (list DelproHistoryMilkDiversionInfo.t) :=
  t ← db ≫= HistoryMilkDiversionInfo;
  Some (take TOP
    (ORDER_BY (λ d, Some (DelproHistoryMilkDiversionInfo.OID d))
      (filter (λ d, lastDiversionOid < DelproHistoryMilkDiversionInfo.OID d) t))).

End Queries.

(** ** The host the worker runs on *)

(** What [new Random()], [Guid.NewGuid()] and [DateTime.UtcNow] hand to
    the mock batch: the draw of [rnd.Next(0, 10)] and the generated
    columns of the i-th mock row. *)
Record MockSource : Type := mkMockSource {
  Next_0_10 : Z;
  mock_columns : nat -> DelproSessionsMilkYield.t
}.

(** [configuration] is [_configuration], read by key; [one_year_ago] is
    [DateTime.Now.AddYears(-1).ToString("yyyy-MM-dd")] as the server reads
    it back, midnight of the day one year before the cycle runs. *)
Record Host : Type := mkHost {
  configuration : gmap string string;
  is_windows : bool;
  sql : SqlServer;
  one_year_ago : DateTime;
  mock_source : MockSource
}.

Definition GetConnectionString (h : Host) (databaseName : string)
  : string * list Event :=
  let connStr := configuration h !! "ConnectionStrings:DelProDb" in
  if negb (IsNullOrEmpty connStr) then (default "" connStr, [])
  else if is_windows h then
    ("Server=localhost;Database=" +:+ databaseName
       +:+ ";Integrated Security=SSPI;TrustServerCertificate=True;",
     [Log Information
        "No ConnectionString found. Detecting Windows OS... Using Integrated Security with DB: {DB}"])
  else
    ("Server=localhost;Database=" +:+ databaseName
       +:+ ";User Id=sa;Password=PecusChain2025!;TrustServerCertificate=True;",
     []).

Definition IsMockMode (connStr : option string) : bool :=
  IsNullOrEmpty connStr || Contains (default "" connStr) "Placeholder".

Definition empty_payload (farmId : string) : IngestPayload :=
  mkIngestPayload farmId [] [] [] [] [] [].

Definition with_OID (s : DelproSessionsMilkYield.t) (oid : Z)
  : DelproSessionsMilkYield.t :=
  DelproSessionsMilkYield.mk
    (DelproSessionsMilkYield.SessionNo s)
    (DelproSessionsMilkYield.BeginTime s)
    (DelproSessionsMilkYield.BasicAnimal s)
    (Some oid).

Definition FetchMockIncrementalBatch (m : MockSource) (farmId : string) (lastOid : Z)
  : IngestPayload :=
  if decide (Next_0_10 m < 3) then empty_payload farmId
  else
    let startOid := wrap64 (lastOid + 1) in
    let sessions :=
      (λ i : nat, with_OID (mock_columns m i) (wrap64 (startOid + Z.of_nat i)))
        <$> seq 0 3 in
    mkIngestPayload farmId [] [] sessions [] [] [].

(** LINQ [Min] and [Max] with a nullable selector skip the nulls and
    answer null when nothing is left. *)
Definition fold_nullable (f : Z -> Z -> Z) (xs : list (option Z)) : option Z :=
  foldr (λ x acc,
          match x, acc with
          | Some a, Some b => Some (f a b)
          | Some a, None => Some a
          | None, _ => acc
          end) None xs.

Definition Min (xs : list (option Z)) : option Z := fold_nullable Z.min xs.
Definition Max (xs : list (option Z)) : option Z := fold_nullable Z.max xs.

Definition Any {A : Type} (l : list A) : bool :=
  match l with [] => false | _ :: _ => true end.

(** ** FetchBatchData, block by block *)

Section Extraction.
Variable db : option Database.
Variable faults : ReaderFaults.
Variable oneYearAgo : DateTime.

(** 1. ANIMALS with 1.1 HISTORY ANIMALS nested in the same [try]. *)
Definition fetch_animals (lastAnimalOid : Z)
  : list DelproBasicAnimal.t * list DelproHistoryAnimal.t * list Event :=
  let '(animals, raised) :=
    run_reader (fault_animals faults) (sqlAnimals db oneYearAgo lastAnimalOid) in
  if raised then
    (animals, [], [Log Warning "Failed to fetch Basic Animals: {Msg}"])
  else if Any animals then
    let newOids := DelproBasicAnimal.OID <$> animals in
    let '(historyAnimals, raisedH) :=
      run_reader (fault_history faults) (sqlHistory db newOids) in
    if raisedH then
      (animals, historyAnimals,
       [Log Warning "Failed to fetch HistoryAnimal (Table might not exist?): {Msg}"])
    else
      (animals, historyAnimals,
       [Log Information
          "Fetched {Count} HistoryAnimal records for {AnimCount} new animals."])
  else (animals, [], []).

(** 2. LACTATIONS *)
Definition fetch_lactations (lastLactationOid : Z)
  : list DelproAnimalsLactationsSummary.t * list Event :=
  let '(lactations, raised) :=
    run_reader (fault_lactations faults) (sqlLact db oneYearAgo lastLactationOid) in
  (lactations,
   if raised then [Log Warning "Failed to fetch Lactations: {Msg}"] else []).

(** 3. SESSIONS (Normal).  On the first run the start date is chosen by
    the check query, whose own failure is swallowed.  On later runs the
    parameter is added only when the watermark is positive; a command
    whose parameter is missing raises. *)
Definition fetch_sessions (lastSessionOid : Z)
  : list DelproSessionsMilkYield.t * list Event :=
  if decide (lastSessionOid = 0) then
    let hasRecentData := default false (checkSql db oneYearAgo) in
    let startDate := if hasRecentData then oneYearAgo else fallbackDate in
    let '(sessions, raised) :=
      run_reader (fault_sessions faults) (sqlSessions_first_run db startDate) in
    (sessions,
     Log Information
       "Session Sync Strategy: First Run. Starting from {Date} (HasRecentData: {Has})"
     :: if raised then [Log Warning "Failed to fetch Sessions: {Msg}"] else [])
  else
    let cmd :=
      if decide (0 < lastSessionOid) then sqlSessions_incremental db lastSessionOid
      else None in
    let '(sessions, raised) := run_reader (fault_sessions faults) cmd in
    (sessions,
     if raised then [Log Warning "Failed to fetch Sessions: {Msg}"] else []).

(** 4. SESSIONS (Voluntary), only when the session batch has rows.  A
    null [@MinOID] or [@MaxOID] is not sent and the command raises. *)
Definition fetch_voluntary (sessions : list DelproSessionsMilkYield.t)
  : list DelproVoluntarySessionsMilkYield.t * list Event :=
  if Any sessions then
    let minOid := Min (DelproSessionsMilkYield.OID <$> sessions) in
    let maxOid := Max (DelproSessionsMilkYield.OID <$> sessions) in
    let cmd :=
      match minOid, maxOid with
      | Some lo, Some hi => sqlVoluntary db lo hi
      | _, _ => None
      end in
    let '(voluntary, raised) := run_reader (fault_voluntary faults) cmd in
    (voluntary,
     if raised then [Log Warning "Failed to fetch Voluntary Sessions: {Msg}"]
     else [])
  else ([], []).

(** 5. HISTORY MILK DIVERSION INFO *)
Definition fetch_diversions (lastHistoryMilkDiversionOid : Z)
  : list DelproHistoryMilkDiversionInfo.t * list Event :=
  let '(diversions, raised) :=
    run_reader (fault_diversions faults)
      (sqlDiversion db lastHistoryMilkDiversionOid) in
  (diversions,
   if raised then [Log Warning "Could not fetch HistoryMilkDiversionInfo: {Msg}"]
   else []).

End Extraction.

Definition FetchBatchData (h : Host) (farmId : string)
    (lastSessionOid lastAnimalOid lastLactationOid lastHistoryMilkDiversionOid : Z)
    (databaseName : string) : IngestPayload * list Event :=
  let '(connStr, log0) := GetConnectionString h databaseName in
  if IsMockMode (Some connStr) then
    (FetchMockIncrementalBatch (mock_source h) farmId lastSessionOid, log0)
  else if negb (can_open (sql h) connStr) then
    (empty_payload farmId, log0 ++ [Log Error "SQL Connection/Critical Error"])
  else
    let db := databases (sql h) !! databaseName in
    let faults := reader_faults (sql h) in
    let '(animals, historyAnimals, log1) :=
      fetch_animals db faults (one_year_ago h) lastAnimalOid in
    let '(lactations, log2) :=
      fetch_lactations db faults (one_year_ago h) lastLactationOid in
    let '(sessions, log3) :=
      fetch_sessions db faults (one_year_ago h) lastSessionOid in
    let '(voluntary, log4) := fetch_voluntary db faults sessions in
    let '(diversions, log5) :=
      fetch_diversions db faults lastHistoryMilkDiversionOid in
    (mkIngestPayload farmId animals lactations sessions voluntary diversions
       historyAnimals,
     log0 ++ log1 ++ log2 ++ log3 ++ log4 ++ log5).

(** ** The configuration file agent_config.json *)

Inductive ConfigFile : Type :=
| NoFile
| Unreadable
| Json (content : option AgentConfig).

(** The file after the worker's effects: only a write replaces it. *)
Definition apply_event (disk : ConfigFile) (e : Event) : ConfigFile :=
  match e with
  | FileWriteConfig c => Json (Some c)
  | _ => disk
  end.

Definition disk_after (disk : ConfigFile) (tr : list Event) : ConfigFile :=
  foldl apply_event disk tr.

Definition LoadConfig (disk : ConfigFile) : option AgentConfig * list Event :=
  match disk with
  | NoFile => (None, [])
  | Unreadable => (None, [Log Warning "Failed to load config file: {Msg}"])
  | Json c => (c, [])
  end.

Definition LoadFarmIdFromConfig (disk : ConfigFile) : option string * list Event :=
  let '(config, log) := LoadConfig disk in
  (config ≫= FarmId, log).

Definition SaveFarmIdToConfig (writable : bool) (farmId : string) : list Event :=
  if writable then
    [FileWriteConfig (new_AgentConfig farmId);
     Log Information "Saved Farm ID to {File}"]
  else [Log Error "Failed to save config file: {Msg}"].

(** ** The cloud API *)

Definition IsSuccessStatusCode (status : Z) : bool :=
  (200 <=? status) && (status <=? 299).

(** GET /api/sync/status: [GetFromJsonAsync] raises on a network error,
    on a non-success status and on a malformed body; a body that is the
    JSON literal null deserialises to a null reference. *)
Inductive StatusReply : Type :=
| StatusThrows
| StatusBody (body : option SyncStatusResponse).

Definition GetSyncStatus (reply : StatusReply) (farmId : string)
  : option SyncStatusResponse * list Event :=
  match reply with
  | StatusBody body => (body, [HttpGetStatus farmId])
  | StatusThrows =>
      (Some (mkSyncStatusResponse 0 0 0 0),
       [HttpGetStatus farmId;
        Log Error "Failed to contact Cloud API: {Message}"])
  end.

(** POST /api/v1/farms/register *)
Inductive RegisterReply : Type :=
| RegisterThrows
| RegisterResponse (status : Z) (farm_id : option string).

Definition RegisterFarm (reply : RegisterReply) (farmName : string)
  : option string * list Event :=
  match reply with
  | RegisterResponse status id =>
      if IsSuccessStatusCode status then (id, [HttpPostRegister farmName])
      else (None, [HttpPostRegister farmName;
                   Log Error "Registration Failed: {Status} - {Error}"])
  | RegisterThrows =>
      (None, [HttpPostRegister farmName;
              Log Error "Error calling registration API"])
  end.

(** POST /api/v1/ingest.  The transport answers each attempt of a cycle,
    numbered from 0; [body = None] is an error body that cannot be read. *)
Inductive PostReply : Type :=
| PostThrows
| PostResponse (status : Z) (body : option string).

Definition post_failed (r : PostReply) : bool :=
  match r with
  | PostThrows => true
  | PostResponse status _ => negb (IsSuccessStatusCode status)
  end.

Definition UploadData (post : nat -> PostReply) (payload : IngestPayload)
  : list Event :=
  if decide (length (basic_animals payload) = 0%nat
             ∧ length (sessions_milk_yield payload) = 0%nat
             ∧ length (lactations_summary payload) = 0%nat
             ∧ length (history_milk_diversion_info payload) = 0%nat)
  then [Log Information "No new data to upload."]
  else
    Log Information
      "Uploading batch: {Anim} Animals, {Lact} Lactations, {Sess} Sessions, {Div} Diversions..."
    :: HttpPostIngest payload
    :: match post 0%nat with
       | PostResponse status body =>
           if IsSuccessStatusCode status then
             [Log Information "Upload SUCCESS."]
           else
             match body with
             | Some _ => [Log Error "Upload FAILED: {StatusCode} - {Error}"]
             | None => [Log Error "Error during upload."]
             end
       | PostThrows => [Log Error "Error during upload."]
       end.

(** ** ExecuteAsync *)

(** *** 1. Resolve FARM_ID (Env Var > Config File > Interactive Registration) *)

Record StartupEnv : Type := mkStartupEnv {
  startup_configuration : gmap string string;
  IsInputRedirected : bool;
  console_line : option string;
  register_reply : RegisterReply;
  file_writable : bool
}.

(** [farmId = _configuration["FARM_ID"]], replaced by the file's value when
    it is null, empty or UNKNOWN_FARM. *)
Definition farm_id_from_env_or_file (disk : ConfigFile) (s : StartupEnv)
  : option string * list Event :=
  let farmId := startup_configuration s !! "FARM_ID" in
  if IsNullOrEmpty farmId || bool_decide (farmId = Some "UNKNOWN_FARM")
  then LoadFarmIdFromConfig disk
  else (farmId, []).

(** The start of [ExecuteAsync] up to the loop: the identity the loop
    runs with, or [None] when the method returned. *)
Definition resolve_farm_id (disk : ConfigFile) (s : StartupEnv)
  : option string * list Event :=
  let '(farmId, log1) := farm_id_from_env_or_file disk s in
  let '(farmId, log2, returned) :=
    if IsNullOrEmpty farmId then
      if negb (IsInputRedirected s) then
        let farmName := console_line s in
        if negb (IsNullOrWhiteSpace farmName) then
          let '(farmId, logr) := RegisterFarm (register_reply s) (default "" farmName) in
          (farmId,
           Log Warning "FARM_ID is not set via Env or Config."
           :: ConsoleReadLine
           :: logr
           ++ (if negb (IsNullOrEmpty farmId)
               then SaveFarmIdToConfig (file_writable s) (default "" farmId)
               else []),
           false)
        else
          (farmId,
           [Log Warning "FARM_ID is not set via Env or Config."; ConsoleReadLine],
           false)
      else
        (farmId,
         [Log Warning "FARM_ID is not set via Env or Config.";
          Log Error
            "Cannot register farm in non-interactive mode without FARM_ID env var."],
         true)
    else (farmId, [], false) in
  if returned then (None, log1 ++ log2)
  else if IsNullOrEmpty farmId then
    (None, log1 ++ log2 ++ [Log Error "Startup aborted. No valid FARM_ID."])
  else
    (farmId,
     log1 ++ log2
     ++ [Log Information "Pecus Chain Agent Service Started. Farm ID: {FarmId}"]).

(** *** The polling loop *)

Definition PollingIntervalSeconds_default : Z := 1800.

(** [Task.Delay(TimeSpan.FromSeconds(s), token)] accepts 0 up to
    4294967294 milliseconds and raises ArgumentOutOfRangeException
    otherwise. *)
Definition delay_in_range (seconds : Z) : bool :=
  (0 <=? seconds * 1000) && (seconds * 1000 <=? 4294967294).

Record CycleEnv : Type := mkCycleEnv {
  host : Host;
  status_reply : StatusReply;
  post_reply : nat -> PostReply;
  (** [stoppingToken.IsCancellationRequested] at the loop test *)
  stop_at_test : bool;
  (** the token is cancelled by the time this iteration waits *)
  stop_in_wait : bool
}.

Inductive Completion : Type := Normal | Throws.

(** [await Task.Delay(TimeSpan.FromSeconds(seconds), stoppingToken)] *)
Definition Task_Delay (seconds : Z) (cancelled : bool) : list Event * Completion :=
  if negb (delay_in_range seconds) then ([], Throws)
  else if cancelled then ([DelayCancelled seconds], Throws)
  else ([Delay seconds], Normal).

(** [config?.PollingIntervalSeconds ?? PollingIntervalSeconds] *)
Definition currentInterval (config : option AgentConfig) : Z :=
  match config with
  | Some c => PollingIntervalSeconds c
  | None => PollingIntervalSeconds_default
  end.

(** [config?.DatabaseName ?? "DelPro"] *)
Definition dbName (config : option AgentConfig) : string :=
  default "DelPro" (config ≫= DatabaseName).

(** The body of the [try]: its trace, how it completes, and the payload
    it extracted (none when the status is a null reference and reading
    [status.last_oid] raises). *)
Definition cycle_try (disk : ConfigFile) (farmId : string) (e : CycleEnv)
  : list Event * Completion * option IngestPayload :=
  let '(config, log1) := LoadConfig disk in
  let '(status, log2) := GetSyncStatus (status_reply e) farmId in
  match status with
  | None => (log1 ++ log2, Throws, None)
  | Some st =>
      let '(payload, log3) :=
        FetchBatchData (host e) farmId (last_oid st) (last_animal_oid st)
          (last_lactation_oid st) (last_history_milk_diversion_oid st)
          (dbName config) in
      let log4 := UploadData (post_reply e) payload in
      let '(wait, completion) :=
        Task_Delay (currentInterval config) (stop_in_wait e) in
      (log1 ++ log2
       ++ [Log Information "Cloud Watermarks - Sess: {S}, Anim: {A}, Lact: {L}, Div: {D}";
           Log Information
             "Sync Cycle: Fetching data... (Sess>{S}, Anim>{A}, Lact>{L}, Div>{D})"]
       ++ log3 ++ log4
       ++ [Log Information "Waiting {Sec} seconds before next sync..."]
       ++ wait,
       completion, Some payload)
  end.

Inductive Exit : Type :=
| StartupReturned
| LoopEnded
| CancelledWhileWaiting
| StillRunning.

(** One turn of [while (!stoppingToken.IsCancellationRequested)]:
    [None] when control goes back to the loop test. *)
Definition iteration (disk : ConfigFile) (farmId : string) (e : CycleEnv)
  : list Event * option Exit :=
  if stop_at_test e then ([], Some LoopEnded)
  else
    let '(tr, completion, _) := cycle_try disk farmId e in
    match completion with
    | Normal => (tr, None)
    | Throws =>
        let '(wait, again) := Task_Delay 60 (stop_in_wait e) in
        (tr ++ Log Error "Error in Sync Cycle" :: wait,
         match again with
         | Normal => None
         | Throws => Some CancelledWhileWaiting
         end)
    end.

Fixpoint loop (disk : ConfigFile) (farmId : string) (envs : list CycleEnv)
  : list Event * Exit :=
  match envs with
  | [] => ([], StillRunning)
  | e :: envs' =>
      let '(tr, exit) := iteration disk farmId e in
      match exit with
      | Some x => (tr, x)
      | None =>
          let '(tr', x) := loop disk farmId envs' in
          (tr ++ tr', x)
      end
  end.

Definition ExecuteAsync (disk : ConfigFile) (s : StartupEnv) (envs : list CycleEnv)
  : list Event * Exit :=
  let '(farmId, tr0) := resolve_farm_id disk s in
  match farmId with
  | None => (Log Information "API Target: {ApiUrl}" :: tr0, StartupReturned)
  | Some id =>
      let '(tr, x) := loop (disk_after disk tr0) id envs in
      (Log Information "API Target: {ApiUrl}" :: tr0 ++ tr, x)
  end.

(** ** The resolution order, in the words of the specification

    The three sources are read off the environment itself: the
    configuration key, the content of agent_config.json, the console and
    the answer of the registration endpoint.  An identity is a value that
    is neither null nor empty. *)

Definition usable (id : option string) : option string :=
  if IsNullOrEmpty id then None else id.

(** (a) the explicit configuration or environment value, as the claim
    words it: whatever is set under FARM_ID. *)
Definition explicit_value (s : StartupEnv) : option string :=
  usable (startup_configuration s !! "FARM_ID").

(** (a) with the placeholder UNKNOWN_FARM standing for no value. *)
Definition explicit_identity (s : StartupEnv) : option string :=
  let v := startup_configuration s !! "FARM_ID" in
  if bool_decide (v = Some "UNKNOWN_FARM") then None else usable v.

(** (b) the identity stored in the persisted configuration file: the
    file is there, can be read, holds an object and the object an
    identity. *)
Definition persisted_identity (disk : ConfigFile) : option string :=
  match disk with
  | Json (Some stored) => usable (FarmId stored)
  | Json None | NoFile | Unreadable => None
  end.

(** (c) interactive registration, only with an interactive input
    surface: the operator typed a name and the endpoint answered with a
    success status and a generated identity. *)
Definition registered_identity (s : StartupEnv) : option string :=
  if IsInputRedirected s then None
  else if IsNullOrWhiteSpace (console_line s) then None
  else match register_reply s with
       | RegisterResponse status generated =>
           if bool_decide (200 ≤ status ≤ 299) then usable generated else None
       | RegisterThrows => None
       end.

Definition first_of (a b : option string) : option string :=
  match a with Some _ => a | None => b end.

Definition identity_by_order (disk : ConfigFile) (s : StartupEnv) : option string :=
  first_of (explicit_identity s)
    (first_of (persisted_identity disk) (registered_identity s)).

(** The order with source (a) as the claim words it. *)
Definition identity_as_stated (disk : ConfigFile) (s : StartupEnv) : option string :=
  first_of (explicit_value s)
    (first_of (persisted_identity disk) (registered_identity s)).

(** The calls of the registration endpoint the order allows: one, with
    the name typed, when (a) and (b) yielded nothing and a name was typed
    on an interactive console. *)
Definition registration_calls (disk : ConfigFile) (s : StartupEnv) : list Event :=
  match first_of (explicit_identity s) (persisted_identity disk) with
  | Some _ => []
  | None =>
      if IsInputRedirected s || IsNullOrWhiteSpace (console_line s) then []
      else [HttpPostRegister (default "" (console_line s))]
  end.

(** The container image leaves FARM_ID at its placeholder; the file of
    an earlier registration holds farm-7. *)
Definition placeholder_start : StartupEnv :=
  mkStartupEnv {[ "FARM_ID" := "UNKNOWN_FARM" ]} true None RegisterThrows false.

Definition registered_file : ConfigFile :=
  Json (Some (mkAgentConfig (Some "farm-7") (Some "DelPro") 1800)).

(** ** A reference installation

    A Windows host with an explicit connection string, one database
    named DelPro and a server that accepts the connection. *)

Definition no_faults : ReaderFaults :=
  mkReaderFaults None None None None None None.

Definition no_mock : MockSource :=
  mkMockSource 0 (λ _, DelproSessionsMilkYield.mk "" None None None).

Definition farm_host (db : Database) (faults : ReaderFaults) (oneYearAgo : DateTime)
  : Host :=
  mkHost
    {[ "ConnectionStrings:DelProDb" := "Server=farm-pc;Database=DelPro;Integrated Security=SSPI;" ]}
    true
    (mkSqlServer (λ _, true) {[ "DelPro" := db ]} faults)
    oneYearAgo
    no_mock.

Definition animal (oid : Z) (exitDate : option DateTime) : DelproBasicAnimal.t :=
  DelproBasicAnimal.mk oid None None exitDate.

Definition session (oid : Z) : DelproSessionsMilkYield.t :=
  DelproSessionsMilkYield.mk "" (Some 1700000000) None (Some oid).

Definition voluntary (oid : Z) : DelproVoluntarySessionsMilkYield.t :=
  DelproVoluntarySessionsMilkYield.mk oid None.

Definition diversion (oid : Z) : DelproHistoryMilkDiversionInfo.t :=
  DelproHistoryMilkDiversionInfo.mk oid None None.

Definition lactation (oid animalOid : Z) : DelproAnimalsLactationsSummary.t :=
  DelproAnimalsLactationsSummary.mk oid (Some animalOid) None.

Definition history (referenceId : Z) : DelproHistoryAnimal.t :=
  DelproHistoryAnimal.mk (Some referenceId) "".

Definition herd_db : Database :=
  mkDatabase
    (Some [animal 5 (Some 100); animal 7 None; animal 6 (Some 900)])
    (Some [history 7; history 5; history 6])
    (Some [lactation 11 7; lactation 10 5])
    (Some [session 3; session 1])
    (Some [voluntary 1; voluntary 2; voluntary 3; voluntary 4])
    (Some [diversion 21; diversion 20]).

(** A first installation: session 2 is older than the lookback. *)
Definition session_at (oid : Z) (beginTime : DateTime) : DelproSessionsMilkYield.t :=
  DelproSessionsMilkYield.mk "" (Some beginTime) None (Some oid).

Definition first_run_db : Database :=
  mkDatabase
    (Some [])
    (Some [])
    (Some [])
    (Some [session_at 1 1700000000; session_at 2 1500000000; session_at 3 1700000000])
    (Some [voluntary 1; voluntary 2; voluntary 3; voluntary 4])
    (Some []).

Definition empty_db : Database :=
  mkDatabase (Some []) (Some []) (Some []) (Some []) (Some []) (Some []).

(** A cycle on the reference installation with no cancellation. *)
Definition farm_cycle (db : Database) (faults : ReaderFaults) (oneYearAgo : DateTime)
    (status : StatusReply) (post : nat -> PostReply) : CycleEnv :=
  mkCycleEnv (farm_host db faults oneYearAgo) status post false false.

Definition watermark_1 : StatusReply :=
  StatusBody (Some (mkSyncStatusResponse 1 1 1 1)).

Definition accepted : nat -> PostReply := λ _, PostResponse 200 (Some "").

Definition unreachable : nat -> PostReply := λ _, PostThrows.



(** An operator set a negative polling interval in the file. *)
Definition negative_interval : ConfigFile :=
  Json (Some (mkAgentConfig (Some "farm") (Some "DelPro") (-5))).


(** Two consecutive days (the one-year cutoff moves by a day) and a herd
    whose animal 6 left between the two cutoffs. *)
Definition cutoff_day1 : DateTime := 1700000000.
Definition cutoff_day2 : DateTime := 1700086400.

Definition exit_db : Database :=
  mkDatabase (Some [animal 6 (Some 1700050000)])
    (Some []) (Some []) (Some []) (Some []) (Some []).

(** Every list of the payload is empty. *)
Definition all_batches_empty (p : IngestPayload) : Prop :=
  basic_animals p = [] ∧ lactations_summary p = []
  ∧ sessions_milk_yield p = [] ∧ voluntary_sessions_milk_yield p = []
  ∧ history_milk_diversion_info p = [] ∧ history_animals p = [].


(** The command the session block executes. *)
Definition session_command (db : option Database) (oneYearAgo : DateTime) (ws : Z)
  : option (list DelproSessionsMilkYield.t) :=
  if decide (ws = 0) then
    sqlSessions_first_run db
      (if default false (checkSql db oneYearAgo) then oneYearAgo else fallbackDate)
  else if decide (0 < ws) then sqlSessions_incremental db ws
  else None.


(** The worker really queries the server: the connection string is no
    mock marker and [conn.Open()] succeeds. *)
Definition queries_server (h : Host) (databaseName : string) : Prop :=
  IsMockMode (Some (GetConnectionString h databaseName).1) = false
  ∧ can_open (sql h) (GetConnectionString h databaseName).1 = true.


(** "exactly min(N, max) rows, each with identifier above the watermark,
    ascending by identifier" *)
Definition bounded_batch {A : Type} (key : A -> option Z) (w : Z) (N : nat)
    (batch : list A) : Prop :=
  length batch = (N `min` TOP)%nat
  ∧ Forall (λ x, gt_null (key x) w) batch
  ∧ Sorted (by_key key) batch.

(** ** The constructor: the base address of the cloud API *)

Definition double_quote : ascii := ascii_of_nat 34.
Definition single_quote : ascii := ascii_of_nat 39.

(** [s.Replace(c.ToString(), "")]: every occurrence of the character goes. *)
Fixpoint Replace_by_empty (c : ascii) (s : string) : string :=
  match s with
  | EmptyString => EmptyString
  | String x s' =>
      if decide (x = c) then Replace_by_empty c s'
      else String x (Replace_by_empty c s')
  end.

Fixpoint TrimStart (s : string) : string :=
  match s with
  | EmptyString => EmptyString
  | String c s' => if IsWhiteSpace c then TrimStart s' else s
  end.

Fixpoint TrimEnd (s : string) : string :=
  match s with
  | EmptyString => EmptyString
  | String c s' =>
      match TrimEnd s' with
      | EmptyString => if IsWhiteSpace c then EmptyString else String c EmptyString
      | t => String c t
      end
  end.

(** [s.Trim()]: leading and trailing white space goes. *)
Definition Trim (s : string) : string := TrimEnd (TrimStart s).

(** The value the constructor stores in [_apiBaseUrl]. *)
Definition SyncWorker_apiBaseUrl (configuration : gmap string string) : string :=
  let url := configuration !! "API_BASE_URL" in
  let url :=
    if IsNullOrEmpty url then "http://host.docker.internal:8000"
    else default "" url in
  Trim (Replace_by_empty single_quote (Replace_by_empty double_quote url)).

(** Observations on strings. *)
Fixpoint occurs (c : ascii) (s : string) : bool :=
  match s with
  | EmptyString => false
  | String x s' => bool_decide (x = c) || occurs c s'
  end.

Definition starts_with_white (s : string) : bool :=
  match s with
  | EmptyString => false
  | String c _ => IsWhiteSpace c
  end.

Fixpoint ends_with_white (s : string) : bool :=
  match s with
  | EmptyString => false
  | String c EmptyString => IsWhiteSpace c
  | String _ s' => ends_with_white s'
  end.

(** Every character is a quote or white space. *)
Fixpoint only_quotes_and_blanks (s : string) : bool :=
  match s with
  | EmptyString => true
  | String c s' =>
      (bool_decide (c = double_quote) || bool_decide (c = single_quote)
       || IsWhiteSpace c)
      && only_quotes_and_blanks s'
  end.

(** A start-up with nothing configured and no console: only the file can
    yield the identity. *)
Definition unattended_start : StartupEnv :=
  mkStartupEnv ∅ true None RegisterThrows false.

(** A first start on a console: the operator types a farm name and the
    cloud registers it. *)
Definition console_registration (farmId : string) : StartupEnv :=
  mkStartupEnv ∅ false (Some "Hill Farm")
    (RegisterResponse 200 (Some farmId)) true.

(** A file an operator prepared before registering: database and
    interval set, no identity yet. *)
Definition prepared_file : ConfigFile :=
  Json (Some (mkAgentConfig None (Some "Farm2") 600)).

(** The event names the identity the worker started with, where it
    names one at all. *)
Definition carries_identity (farmId : string) (ev : Event) : Prop :=
  match ev with
  | HttpGetStatus f => f = farmId
  | HttpPostIngest p => farm_id p = farmId
  | _ => True
  end.

(** ** The reader loop over raw rows

    [while (r.Read()) { xs.Add(Map(r)); }] with a mapping helper that
    raises on some rows ([None]): the rows added, and whether the loop
    was left by the exception. *)
Fixpoint reader_loop {Raw A : Type} (Map : Raw -> option A) (rows : list Raw)
  : list A * bool :=
  match rows with
  | [] => ([], false)
  | r :: rest =>
      match Map r with
      | None => ([], true)
      | Some a =>
          let '(xs, raised) := reader_loop Map rest in
          (a :: xs, raised)
      end
  end.

(** The index of the first row the mapping helper raises on. *)
Fixpoint first_unmappable {Raw A : Type} (Map : Raw -> option A) (rows : list Raw)
  : option nat :=
  match rows with
  | [] => None
  | r :: rest =>
      match Map r with
      | None => Some 0%nat
      | Some _ => S <$> first_unmappable Map rest
      end
  end.

(** A batch without gaps: a candidate row whose key is not above the key
    of some row of the batch is in the batch, and a batch shorter than
    the limit holds every candidate. *)
Definition gapless {A : Type} (key : A -> option Z) (candidates batch : list A)
  : Prop :=
  (∀ x m, x ∈ candidates -> m ∈ batch ->
          null_first_le (key x) (key m) -> x ∈ batch)
  ∧ ((length batch < TOP)%nat -> ∀ x, x ∈ candidates -> x ∈ batch).

(** What every bounded query returns. *)
Definition top_ordered {A : Type} (key : A -> option Z) (cmd : option (list A))
  : Prop :=
  ∀ r, cmd = Some r -> (length r ≤ TOP)%nat ∧ Sorted (by_key key) r.

(** * Properties *)

(** ** Bounded, ordered selections *)

Section Selection.
Context {A : Type} (key : A -> option Z).

Lemma Sorted_take (R : relation A) (n : nat) (l : list A) :
  Sorted R l -> Sorted R (take n l).
Proof.
  revert n. induction l as [|x l IH]; intros [|n] Hs; simpl; try constructor.
  - apply IH. by inversion Hs.
  - inversion Hs as [|? ? _ Hhd]; subst.
    destruct l as [|y l]; destruct n; simpl; constructor.
    by inversion Hhd.
Qed.

Lemma ORDER_BY_Permutation (l : list A) : ORDER_BY key l ≡ₚ l.
Proof. apply merge_sort_Permutation. Qed.

Lemma ORDER_BY_Sorted (l : list A) : Sorted (by_key key) (ORDER_BY key l).
Proof. apply (Sorted_merge_sort (by_key key)). Qed.

Lemma ORDER_BY_length (l : list A) : length (ORDER_BY key l) = length l.
Proof. by rewrite ORDER_BY_Permutation. Qed.

Lemma top_length (l : list A) :
  length (take TOP (ORDER_BY key l)) = (length l `min` TOP)%nat.
Proof. rewrite length_take, ORDER_BY_length. lia. Qed.

Lemma top_Sorted (l : list A) : Sorted (by_key key) (take TOP (ORDER_BY key l)).
Proof. apply Sorted_take, ORDER_BY_Sorted. Qed.

Lemma top_elem_of (l : list A) (x : A) :
  x ∈ take TOP (ORDER_BY key l) -> x ∈ l.
Proof.
  intros Hx. rewrite <- ORDER_BY_Permutation.
  apply elem_of_take in Hx as (i & Hi & _). by eapply list_elem_of_lookup_2.
Qed.

Lemma top_filter_Forall (P : A -> Prop) `{!∀ x, Decision (P x)} (l : list A) :
  Forall P (take TOP (ORDER_BY key (filter P l))).
Proof.
  apply Forall_forall. intros x Hx%top_elem_of.
  by apply list_elem_of_filter in Hx as [? _].
Qed.

End Selection.

(** ** The reader loop *)

Lemma run_reader_prefix {A : Type} (fault : option nat) (result : list A) :
  (run_reader fault (Some result)).1 `prefix_of` result.
Proof.
  unfold run_reader. destruct fault as [k|]; [|done].
  case_decide; simpl; [apply prefix_take | done].
Qed.

(** ** FetchBatchData against the server *)

Lemma FetchBatchData_fields (h : Host) (farmId : string)
    (ws wa wl wd : Z) (databaseName : string) :
  queries_server h databaseName ->
  let db := databases (sql h) !! databaseName in
  let f := reader_faults (sql h) in
  let p := (FetchBatchData h farmId ws wa wl wd databaseName).1 in
  let sessions := (fetch_sessions db f (one_year_ago h) ws).1 in
  farm_id p = farmId
  ∧ basic_animals p = (fetch_animals db f (one_year_ago h) wa).1.1
  ∧ history_animals p = (fetch_animals db f (one_year_ago h) wa).1.2
  ∧ lactations_summary p = (fetch_lactations db f (one_year_ago h) wl).1
  ∧ sessions_milk_yield p = sessions
  ∧ voluntary_sessions_milk_yield p = (fetch_voluntary db f sessions).1
  ∧ history_milk_diversion_info p = (fetch_diversions db f wd).1.
Proof.
  intros [Hmock Hopen]. cbv zeta. unfold FetchBatchData.
  destruct (GetConnectionString h databaseName) as [connStr log0].
  simpl in Hmock, Hopen. rewrite Hmock, Hopen. simpl negb. cbv iota.
  destruct (fetch_animals _ _ _ _) as [[animals hist] log1].
  destruct (fetch_lactations _ _ _ _) as [lact log2].
  destruct (fetch_sessions _ _ _ _) as [sess log3].
  destruct (fetch_voluntary _ _ _) as [vol log4].
  destruct (fetch_diversions _ _ _) as [div log5].
  simpl. repeat split.
Qed.

Lemma fetch_animals_rows (db : option Database) (f : ReaderFaults)
    (oneYearAgo : DateTime) (wa : Z) :
  (fetch_animals db f oneYearAgo wa).1.1
  = (run_reader (fault_animals f) (sqlAnimals db oneYearAgo wa)).1.
Proof.
  unfold fetch_animals.
  destruct (run_reader (fault_animals f) _) as [animals [|]]; [done|].
  destruct (Any animals); [|done].
  by destruct (run_reader (fault_history f) _) as [hist [|]].
Qed.

Lemma fetch_animals_history (db : option Database) (f : ReaderFaults)
    (oneYearAgo : DateTime) (wa : Z) :
  (fetch_animals db f oneYearAgo wa).1.2
  = let r := run_reader (fault_animals f) (sqlAnimals db oneYearAgo wa) in
    if r.2 then []
    else if Any r.1 then
      (run_reader (fault_history f) (sqlHistory db (DelproBasicAnimal.OID <$> r.1))).1
    else [].
Proof.
  unfold fetch_animals. cbv zeta.
  destruct (run_reader (fault_animals f) _) as [animals [|]]; [done|]. simpl.
  destruct (Any animals); [|done].
  by destruct (run_reader (fault_history f) _) as [hist [|]].
Qed.

Lemma fetch_lactations_rows (db : option Database) (f : ReaderFaults)
    (oneYearAgo : DateTime) (wl : Z) :
  (fetch_lactations db f oneYearAgo wl).1
  = (run_reader (fault_lactations f) (sqlLact db oneYearAgo wl)).1.
Proof. unfold fetch_lactations. by destruct (run_reader _ _). Qed.

Lemma fetch_diversions_rows (db : option Database) (f : ReaderFaults) (wd : Z) :
  (fetch_diversions db f wd).1
  = (run_reader (fault_diversions f) (sqlDiversion db wd)).1.
Proof. unfold fetch_diversions. by destruct (run_reader _ _). Qed.

Lemma fetch_sessions_incremental_rows (db : option Database) (f : ReaderFaults)
    (oneYearAgo : DateTime) (ws : Z) :
  0 < ws ->
  (fetch_sessions db f oneYearAgo ws).1
  = (run_reader (fault_sessions f) (sqlSessions_incremental db ws)).1.
Proof.
  intros Hws. unfold fetch_sessions.
  rewrite decide_False by lia. rewrite decide_True by done.
  by destruct (run_reader _ _).
Qed.


Lemma fetch_sessions_negative_rows (db : option Database) (f : ReaderFaults)
    (oneYearAgo : DateTime) (ws : Z) :
  ws < 0 -> (fetch_sessions db f oneYearAgo ws).1 = [].
Proof.
  intros Hws. unfold fetch_sessions.
  rewrite decide_False by lia. by rewrite decide_False by lia.
Qed.

Lemma fetch_voluntary_rows (db : option Database) (f : ReaderFaults)
    (sessions : list DelproSessionsMilkYield.t) :
  (fetch_voluntary db f sessions).1
  = if Any sessions then
      (run_reader (fault_voluntary f)
         match Min (DelproSessionsMilkYield.OID <$> sessions),
               Max (DelproSessionsMilkYield.OID <$> sessions) with
         | Some lo, Some hi => sqlVoluntary db lo hi
         | _, _ => None
         end).1
    else [].
Proof.
  unfold fetch_voluntary. destruct (Any sessions); [|done].
  by destruct (run_reader _ _).
Qed.

Example herd_animals_after_1 :
  basic_animals (FetchBatchData (farm_host herd_db no_faults 200) "farm" 1 1 1 1 "DelPro").1
  = [animal 6 (Some 900); animal 7 None].
Proof. vm_compute. reflexivity. Qed.

Lemma join_in_herd_above (oneYearAgo : DateTime) (wl : Z)
    (ls : list DelproAnimalsLactationsSummary.t) (animals : list DelproBasicAnimal.t)
    (l : DelproAnimalsLactationsSummary.t) :
  l ∈ join_in_herd oneYearAgo wl ls animals ->
  wl < DelproAnimalsLactationsSummary.OID l.
Proof.
  unfold join_in_herd. intros (l' & Hin & _)%list_elem_of_bind.
  apply list_elem_of_bind in Hin as (a & Hin & _).
  case_decide as Hc; [|by apply elem_of_nil in Hin].
  apply list_elem_of_singleton in Hin as ->. tauto.
Qed.

(** C2, as the code has it, stream by stream.  When the server is
    queried, each stream whose own table is there and whose own read
    completes gets exactly min(N, 2000) rows, every row above that
    stream's watermark and the rows ascending by identifier, whatever
    happens to the other streams and whatever their watermarks are.  For
    the session stream (watermark above 0) and the diversion stream N is
    the number of table rows with identifier above the watermark.  For
    basic animals N counts only the rows above the watermark that are
    still in the herd (no exit date, or one later than a year ago); for
    lactations N counts the joins of a lactation above the watermark with
    such an animal. *)
Theorem FetchBatchData_batch_bound (h : Host) (farmId : string)
    (ws wa wl wd : Z) (databaseName : string) (db : Database) :
  queries_server h databaseName ->
  databases (sql h) !! databaseName = Some db ->
  let p := (FetchBatchData h farmId ws wa wl wd databaseName).1 in
  let faults := reader_faults (sql h) in
  (∀ sess,
     SessionMilkYield db = Some sess -> fault_sessions faults = None -> 0 < ws ->
     bounded_batch DelproSessionsMilkYield.OID ws
       (length (filter (λ s, gt_null (DelproSessionsMilkYield.OID s) ws) sess))
       (sessions_milk_yield p))
  ∧ (∀ divs,
       HistoryMilkDiversionInfo db = Some divs -> fault_diversions faults = None ->
       bounded_batch (λ d, Some (DelproHistoryMilkDiversionInfo.OID d)) wd
         (length (filter (λ d, wd < DelproHistoryMilkDiversionInfo.OID d) divs))
         (history_milk_diversion_info p))
  ∧ (∀ animals,
       BasicAnimal db = Some animals -> fault_animals faults = None ->
       bounded_batch (λ a, Some (DelproBasicAnimal.OID a)) wa
         (length (filter (λ a, still_in_herd (one_year_ago h) a
                               ∧ wa < DelproBasicAnimal.OID a) animals))
         (basic_animals p))
  ∧ (∀ lacts animals,
       AnimalLactationSummary db = Some lacts -> BasicAnimal db = Some animals ->
       fault_lactations faults = None ->
       bounded_batch (λ l, Some (DelproAnimalsLactationsSummary.OID l)) wl
         (length (join_in_herd (one_year_ago h) wl lacts animals))
         (lactations_summary p)).
Proof.
  intros Hq Hdb p faults.
  destruct (FetchBatchData_fields h farmId ws wa wl wd databaseName Hq)
    as (_ & Eanimals & _ & Elact & Esess & _ & Ediv).
  fold p faults in Eanimals, Elact, Esess, Ediv.
  rewrite Hdb in Eanimals, Elact, Esess, Ediv.
  split; [|split; [|split]].
  - intros sess Hs Fs Hws.
    rewrite fetch_sessions_incremental_rows, Fs in Esess by done.
    unfold sqlSessions_incremental in Esess. simpl in Esess.
    rewrite Hs in Esess. simpl in Esess. rewrite Esess.
    split; [apply top_length|]. split; [|apply top_Sorted].
    apply (top_filter_Forall _ (λ s, gt_null (DelproSessionsMilkYield.OID s) ws)).
  - intros divs Hd Fd.
    rewrite fetch_diversions_rows, Fd in Ediv.
    unfold sqlDiversion in Ediv. simpl in Ediv.
    rewrite Hd in Ediv. simpl in Ediv. rewrite Ediv.
    split; [apply top_length|]. split; [|apply top_Sorted].
    apply (top_filter_Forall _ (λ d, wd < DelproHistoryMilkDiversionInfo.OID d)).
  - intros animals Ha Fa.
    rewrite fetch_animals_rows, Fa in Eanimals.
    unfold sqlAnimals in Eanimals. simpl in Eanimals.
    rewrite Ha in Eanimals. simpl in Eanimals. rewrite Eanimals.
    split; [apply top_length|]. split; [|apply top_Sorted].
    eapply Forall_impl; [apply top_filter_Forall; apply _|].
    simpl. tauto.
  - intros lacts animals Hl Ha Fl.
    rewrite fetch_lactations_rows, Fl in Elact.
    unfold sqlLact in Elact. simpl in Elact.
    rewrite Hl, Ha in Elact. simpl in Elact. rewrite Elact.
    split; [apply top_length|]. split; [|apply top_Sorted].
    apply Forall_forall. intros l Hin%top_elem_of.
    simpl. by eapply join_in_herd_above.
Qed.

(** The reference herd: watermark 1 for every stream, and a cycle whose
    watermarks are all 0 (a first run, or a status request that failed),
    where the bound holds for the three streams it speaks of. *)
Lemma FetchBatchData_batch_bound_witness :
  (let p := (FetchBatchData (farm_host herd_db no_faults 200) "farm" 1 1 1 1 "DelPro").1 in
   bounded_batch DelproSessionsMilkYield.OID 1 1 (sessions_milk_yield p)
   ∧ bounded_batch (λ d, Some (DelproHistoryMilkDiversionInfo.OID d)) 1 2
       (history_milk_diversion_info p)
   ∧ bounded_batch (λ a, Some (DelproBasicAnimal.OID a)) 1 2 (basic_animals p)
   ∧ bounded_batch (λ l, Some (DelproAnimalsLactationsSummary.OID l)) 1 1
       (lactations_summary p))
  ∧ (let p := (FetchBatchData (farm_host herd_db no_faults 200) "farm" 0 0 0 0 "DelPro").1 in
     bounded_batch (λ d, Some (DelproHistoryMilkDiversionInfo.OID d)) 0 2
       (history_milk_diversion_info p)
     ∧ bounded_batch (λ a, Some (DelproBasicAnimal.OID a)) 0 2 (basic_animals p)
     ∧ bounded_batch (λ l, Some (DelproAnimalsLactationsSummary.OID l)) 0 1
         (lactations_summary p)).
Proof.
  destruct (FetchBatchData_batch_bound (farm_host herd_db no_faults 200) "farm"
              1 1 1 1 "DelPro" herd_db) as (Hs & Hd & Ha & Hl);
    [split; reflexivity | reflexivity |].
  destruct (FetchBatchData_batch_bound (farm_host herd_db no_faults 200) "farm"
              0 0 0 0 "DelPro" herd_db) as (_ & Hd0 & Ha0 & Hl0);
    [split; reflexivity | reflexivity |].
  split; [split; [|split; [|split]] | split; [|split]].
  - apply (Hs [session 3; session 1]); [reflexivity | reflexivity | lia].
  - apply (Hd [diversion 21; diversion 20]); reflexivity.
  - apply (Ha [animal 5 (Some 100); animal 7 None; animal 6 (Some 900)]);
      reflexivity.
  - apply (Hl [lactation 11 7; lactation 10 5]
              [animal 5 (Some 100); animal 7 None; animal 6 (Some 900)]);
      reflexivity.
  - apply (Hd0 [diversion 21; diversion 20]); reflexivity.
  - apply (Ha0 [animal 5 (Some 100); animal 7 None; animal 6 (Some 900)]);
      reflexivity.
  - apply (Hl0 [lactation 11 7; lactation 10 5]
               [animal 5 (Some 100); animal 7 None; animal 6 (Some 900)]);
      reflexivity.
Defined.

(** C2 as stated fails for the basic-animal stream: animal 5 lies above
    the watermark 1 but left the herd more than a year ago, so the table
    holds N = 3 rows above the watermark while the batch has 2 rows. *)
Lemma batch_bound_counterexample_exited_animal :
  let rows := [animal 5 (Some 100); animal 7 None; animal 6 (Some 900)] in
  let p := (FetchBatchData (farm_host herd_db no_faults 200) "farm" 1 1 1 1 "DelPro").1 in
  BasicAnimal herd_db = Some rows
  ∧ length (filter (λ a, 1 < DelproBasicAnimal.OID a) rows) = 3%nat
  ∧ length (basic_animals p) = 2%nat
  ∧ (3 `min` TOP)%nat = 3%nat.
Proof. vm_compute. repeat split. Qed.

(** ** Dependent streams *)







(** ** The dependency invariant of a payload *)

Lemma FetchBatchData_mock (h : Host) (farmId : string) (ws wa wl wd : Z)
    (databaseName : string) :
  IsMockMode (Some (GetConnectionString h databaseName).1) = true ->
  (FetchBatchData h farmId ws wa wl wd databaseName).1
  = FetchMockIncrementalBatch (mock_source h) farmId ws.
Proof.
  intros Hm. unfold FetchBatchData.
  destruct (GetConnectionString h databaseName) as [connStr log0].
  simpl in Hm. by rewrite Hm.
Qed.

Lemma FetchBatchData_unopened (h : Host) (farmId : string) (ws wa wl wd : Z)
    (databaseName : string) :
  IsMockMode (Some (GetConnectionString h databaseName).1) = false ->
  can_open (sql h) (GetConnectionString h databaseName).1 = false ->
  (FetchBatchData h farmId ws wa wl wd databaseName).1 = empty_payload farmId.
Proof.
  intros Hm Ho. unfold FetchBatchData.
  destruct (GetConnectionString h databaseName) as [connStr log0].
  simpl in Hm, Ho. by rewrite Hm, Ho.
Qed.

Lemma FetchBatchData_farm_id (h : Host) (farmId : string) (ws wa wl wd : Z)
    (databaseName : string) :
  farm_id (FetchBatchData h farmId ws wa wl wd databaseName).1 = farmId.
Proof.
  destruct (IsMockMode (Some (GetConnectionString h databaseName).1)) eqn:Hm.
  - rewrite FetchBatchData_mock by done.
    unfold FetchMockIncrementalBatch. by case_decide.
  - destruct (can_open (sql h) (GetConnectionString h databaseName).1) eqn:Ho.
    + by destruct (FetchBatchData_fields h farmId ws wa wl wd databaseName
                     (conj Hm Ho)) as (? & _).
    + by rewrite FetchBatchData_unopened.
Qed.

Lemma FetchBatchData_dependency (h : Host) (farmId : string) (ws wa wl wd : Z)
    (databaseName : string) :
  let p := (FetchBatchData h farmId ws wa wl wd databaseName).1 in
  (voluntary_sessions_milk_yield p ≠ [] -> sessions_milk_yield p ≠ [])
  ∧ (history_animals p ≠ [] -> basic_animals p ≠ []).
Proof.
  intros p. subst p.
  destruct (IsMockMode (Some (GetConnectionString h databaseName).1)) eqn:Hm.
  { rewrite FetchBatchData_mock by done.
    unfold FetchMockIncrementalBatch. case_decide; simpl; split; congruence. }
  destruct (can_open (sql h) (GetConnectionString h databaseName).1) eqn:Ho.
  2:{ rewrite FetchBatchData_unopened by done. simpl. split; congruence. }
  destruct (FetchBatchData_fields h farmId ws wa wl wd databaseName (conj Hm Ho))
    as (_ & Ea & Eh & _ & Es & Ev & _).
  split.
  - rewrite Ev, Es, fetch_voluntary_rows.
    destruct (fetch_sessions _ _ _ _).1; simpl; congruence.
  - rewrite Eh, Ea, fetch_animals_history, fetch_animals_rows. cbv zeta.
    destruct (run_reader _ _) as [animals [|]]; simpl; [congruence|].
    destruct animals; simpl; congruence.
Qed.

(** ** Traces of the transport and of a cycle *)

Lemma filter_false_on (q : Event -> bool) (tr : list Event) :
  Forall (λ e, q e = false) tr -> List.filter q tr = [].
Proof.
  induction 1 as [|e tr He _ IH]; [done|]. simpl. by rewrite He.
Qed.

Lemma only_logs_app (l1 l2 : list Event) :
  forallb is_log l1 = true -> forallb is_log l2 = true ->
  forallb is_log (l1 ++ l2) = true.
Proof. intros H1 H2. rewrite forallb_app. by rewrite H1, H2. Qed.

Lemma FetchBatchData_only_logs (h : Host) (farmId : string) (ws wa wl wd : Z)
    (databaseName : string) :
  forallb is_log (FetchBatchData h farmId ws wa wl wd databaseName).2 = true.
Proof.
  unfold FetchBatchData.
  assert (H0 : forallb is_log (GetConnectionString h databaseName).2 = true).
  { unfold GetConnectionString. destruct (negb _); [done|]. by destruct (is_windows h). }
  destruct (GetConnectionString h databaseName) as [connStr log0]. simpl in H0.
  destruct (IsMockMode _); [done|].
  destruct (can_open _ _); simpl negb; cbv iota; [|by apply only_logs_app].
  destruct (fetch_animals _ _ _ _) as [[animals hist] log1] eqn:E1.
  destruct (fetch_lactations _ _ _ _) as [lact log2] eqn:E2.
  destruct (fetch_sessions _ _ _ _) as [sess log3] eqn:E3.
  destruct (fetch_voluntary _ _ _) as [vol log4] eqn:E4.
  destruct (fetch_diversions _ _ _) as [div log5] eqn:E5.
  simpl. repeat apply only_logs_app; [done|..].
  - unfold fetch_animals in E1.
    destruct (run_reader (fault_animals _) _) as [? [|]]; [by inversion E1|].
    destruct (Any _); [|by inversion E1].
    destruct (run_reader (fault_history _) _) as [? [|]]; by inversion E1.
  - unfold fetch_lactations in E2.
    destruct (run_reader _ _) as [? [|]]; by inversion E2.
  - unfold fetch_sessions in E3. case_decide.
    + destruct (run_reader _ _) as [? [|]]; by inversion E3.
    + destruct (run_reader _ _) as [? [|]]; by inversion E3.
  - unfold fetch_voluntary in E4. destruct (Any _); [|by inversion E4].
    destruct (run_reader _ _) as [? [|]]; by inversion E4.
  - unfold fetch_diversions in E5.
    destruct (run_reader _ _) as [? [|]]; by inversion E5.
Qed.

Lemma filter_only_logs (q : Event -> bool) (tr : list Event) :
  (∀ l m, q (Log l m) = false) ->
  forallb is_log tr = true -> List.filter q tr = [].
Proof.
  intros Hq Hall. apply filter_false_on.
  pose proof (proj1 (forallb_forall is_log tr) Hall) as Hin.
  apply Forall_forall. intros e He.
  apply list_elem_of_In, Hin in He. destruct e; by try apply Hq.
Qed.

Lemma UploadData_posts (post : nat -> PostReply) (p : IngestPayload) :
  List.filter is_ingest_post (UploadData post p)
  = if decide (length (basic_animals p) = 0%nat
               ∧ length (sessions_milk_yield p) = 0%nat
               ∧ length (lactations_summary p) = 0%nat
               ∧ length (history_milk_diversion_info p) = 0%nat)
    then [] else [HttpPostIngest p].
Proof.
  unfold UploadData. case_decide; [done|]. simpl. f_equal.
  destruct (post 0%nat) as [|status [body|]]; [done| |];
    by destruct (IsSuccessStatusCode status).
Qed.

(** What a cycle that reached the extraction did, seen through a filter
    that drops log lines and the status request. *)
Lemma cycle_try_filter (q : Event -> bool) (disk : ConfigFile) (farmId : string)
    (e : CycleEnv) (tr : list Event) (c : Completion) (p : IngestPayload) :
  (∀ l m, q (Log l m) = false) ->
  (∀ f, q (HttpGetStatus f) = false) ->
  cycle_try disk farmId e = (tr, c, Some p) ->
  ∃ st,
    (GetSyncStatus (status_reply e) farmId).1 = Some st
    ∧ p = (FetchBatchData (host e) farmId (last_oid st) (last_animal_oid st)
             (last_lactation_oid st) (last_history_milk_diversion_oid st)
             (dbName (LoadConfig disk).1)).1
    ∧ c = (Task_Delay (currentInterval (LoadConfig disk).1) (stop_in_wait e)).2
    ∧ List.filter q tr
      = List.filter q (UploadData (post_reply e) p)
        ++ List.filter q
             (Task_Delay (currentInterval (LoadConfig disk).1) (stop_in_wait e)).1.
Proof.
  intros Hlog Hget. unfold cycle_try.
  destruct (LoadConfig disk) as [config log1] eqn:Ec.
  destruct (GetSyncStatus (status_reply e) farmId) as [[st|] log2] eqn:Eg; [|done].
  destruct (FetchBatchData _ _ _ _ _ _ _) as [payload log3] eqn:Ef.
  destruct (Task_Delay _ _) as [wait completion] eqn:Ew.
  intros [= <- <- <-]. exists st. simpl.
  split; [done|]. split; [by rewrite Ef|]. split; [done|].
  assert (H1 : List.filter q log1 = []).
  { apply filter_only_logs; [done|]. unfold LoadConfig in Ec.
    destruct disk; by inversion Ec. }
  assert (H2 : List.filter q log2 = []).
  { unfold GetSyncStatus in Eg. destruct (status_reply e); inversion Eg; subst; simpl.
    - by rewrite Hget, Hlog.
    - by rewrite Hget. }
  assert (H3 : List.filter q log3 = []).
  { apply filter_only_logs; [done|].
    pose proof (FetchBatchData_only_logs (host e) farmId (last_oid st)
                  (last_animal_oid st) (last_lactation_oid st)
                  (last_history_milk_diversion_oid st) (dbName config)) as H.
    by rewrite Ef in H. }
  rewrite List.filter_app, H1, List.filter_app, H2. simpl. rewrite !Hlog.
  rewrite List.filter_app, H3, List.filter_app. simpl. by rewrite Hlog.
Qed.

Lemma length_zero_nil {A : Type} (l : list A) : length l = 0%nat <-> l = [].
Proof. by destruct l. Qed.

Lemma upload_skipped_iff (p : IngestPayload) :
  (voluntary_sessions_milk_yield p ≠ [] -> sessions_milk_yield p ≠ []) ->
  (history_animals p ≠ [] -> basic_animals p ≠ []) ->
  (length (basic_animals p) = 0%nat
   ∧ length (sessions_milk_yield p) = 0%nat
   ∧ length (lactations_summary p) = 0%nat
   ∧ length (history_milk_diversion_info p) = 0%nat)
  <-> all_batches_empty p.
Proof.
  intros Hv Hh. unfold all_batches_empty. rewrite !length_zero_nil. split.
  - intros (Ha & Hs & Hl & Hd). repeat split; try done.
    + destruct (voluntary_sessions_milk_yield p); [done|]. by destruct Hv.
    + destruct (history_animals p); [done|]. by destruct Hh.
  - tauto.
Qed.

(** C10.  In every payload [FetchBatchData] builds, voluntary sessions
    come with sessions and history animals come with basic animals, so
    the four lists [UploadData] inspects are empty only when all six
    are: an upload that posts nothing skipped no record. *)
Theorem FetchBatchData_dependency_invariant (h : Host) (farmId : string)
    (ws wa wl wd : Z) (databaseName : string) (post : nat -> PostReply) :
  let p := (FetchBatchData h farmId ws wa wl wd databaseName).1 in
  (voluntary_sessions_milk_yield p ≠ [] -> sessions_milk_yield p ≠ [])
  ∧ (history_animals p ≠ [] -> basic_animals p ≠ [])
  ∧ (List.filter is_ingest_post (UploadData post p) = [] -> all_batches_empty p).
Proof.
  intros p.
  destruct (FetchBatchData_dependency h farmId ws wa wl wd databaseName) as [Hv Hh].
  fold p in Hv, Hh. split; [done|]. split; [done|].
  rewrite UploadData_posts. case_decide as Hc; [|done].
  intros _. by apply upload_skipped_iff.
Qed.

Lemma Task_Delay_no_posts (seconds : Z) (cancelled : bool) :
  List.filter is_ingest_post (Task_Delay seconds cancelled).1 = [].
Proof.
  unfold Task_Delay. destruct (delay_in_range seconds); [|done].
  by destruct cancelled.
Qed.

Lemma cycle_try_contains_upload (disk : ConfigFile) (farmId : string)
    (e : CycleEnv) (tr : list Event) (c : Completion) (p : IngestPayload) (ev : Event) :
  cycle_try disk farmId e = (tr, c, Some p) ->
  ev ∈ UploadData (post_reply e) p -> ev ∈ tr.
Proof.
  unfold cycle_try.
  destruct (LoadConfig disk) as [config log1].
  destruct (GetSyncStatus (status_reply e) farmId) as [[st|] log2]; [|done].
  destruct (FetchBatchData _ _ _ _ _ _ _) as [payload log3].
  destruct (Task_Delay _ _) as [wait completion].
  intros [= <- <- <-] Hev.
  rewrite !elem_of_app. right. right. rewrite !elem_of_cons, !elem_of_app. auto.
Qed.

(** C4.  A cycle whose extraction left every batch empty sends nothing
    to the ingest endpoint and logs that there is no new data; a cycle
    with a row in any batch sends exactly one POST, and that request
    carries the whole payload. *)
Theorem cycle_upload_short_circuit (disk : ConfigFile) (farmId : string)
    (e : CycleEnv) (tr : list Event) (c : Completion) (p : IngestPayload) :
  cycle_try disk farmId e = (tr, c, Some p) ->
  (all_batches_empty p ->
     List.filter is_ingest_post tr = []
     ∧ Log Information "No new data to upload." ∈ tr)
  ∧ (¬ all_batches_empty p -> List.filter is_ingest_post tr = [HttpPostIngest p]).
Proof.
  intros Hc.
  destruct (cycle_try_filter is_ingest_post disk farmId e tr c p) as
    (st & _ & Hp & _ & Htr); [done|done|done|].
  rewrite Task_Delay_no_posts, app_nil_r, UploadData_posts in Htr.
  assert (Hiff := upload_skipped_iff p).
  destruct (FetchBatchData_dependency (host e) farmId (last_oid st)
              (last_animal_oid st) (last_lactation_oid st)
              (last_history_milk_diversion_oid st)
              (dbName (LoadConfig disk).1)) as [Hv Hh].
  rewrite <- Hp in Hv, Hh. specialize (Hiff Hv Hh).
  split.
  - intros Hempty. rewrite decide_True in Htr by by apply Hiff. split; [done|].
    eapply cycle_try_contains_upload; [done|].
    unfold UploadData. rewrite decide_True by by apply Hiff. by left.
  - intros Hne. rewrite decide_False in Htr; [done|]. by rewrite Hiff.
Qed.

(** A cycle over an empty store and a cycle over the reference herd. *)
Lemma cycle_upload_short_circuit_witness :
  let quiet := cycle_try NoFile "farm"
                 (farm_cycle empty_db no_faults 200 watermark_1 accepted) in
  let busy := cycle_try NoFile "farm"
                (farm_cycle herd_db no_faults 200 watermark_1 accepted) in
  (List.filter is_ingest_post quiet.1.1 = []
   ∧ Log Information "No new data to upload." ∈ quiet.1.1)
  ∧ ∃ p, busy.2 = Some p ∧ List.filter is_ingest_post busy.1.1 = [HttpPostIngest p].
Proof.
  split.
  - eapply (cycle_upload_short_circuit NoFile "farm"
              (farm_cycle empty_db no_faults 200 watermark_1 accepted)).
    + reflexivity.
    + repeat split.
  - eexists. split; [reflexivity|].
    eapply (cycle_upload_short_circuit NoFile "farm"
              (farm_cycle herd_db no_faults 200 watermark_1 accepted)).
    + reflexivity.
    + intros (Ha & _). discriminate Ha.
Defined.

(** ** The upload transport *)

(** [UploadData] asks the transport once: the answers to later attempts
    never matter, at most one POST leaves and it never waits. *)
Lemma UploadData_one_attempt (post : nat -> PostReply) (p : IngestPayload) :
  UploadData post p = UploadData (λ _, post 0%nat) p
  ∧ (count_events is_ingest_post (UploadData post p) ≤ 1)%nat
  ∧ count_events is_delay (UploadData post p) = 0%nat.
Proof.
  split; [done|]. unfold count_events. rewrite UploadData_posts. split.
  - case_decide; simpl; lia.
  - unfold UploadData. case_decide; [done|]. simpl.
    destruct (post 0%nat) as [|status [body|]]; [done| |];
      by destruct (IsSuccessStatusCode status).
Qed.

(** C1 at a failing input.  The herd has rows above the watermark and the
    ingest endpoint is unreachable at every attempt: the cycle posts once,
    logs the error and goes straight to the polling wait of 1800 seconds;
    no second attempt and no back-off wait of 2 seconds follow. *)
Theorem upload_failure_is_not_retried :
  let e := farm_cycle herd_db no_faults 200 watermark_1 unreachable in
  let tr := (cycle_try NoFile "farm" e).1.1 in
  (∀ n, post_failed (post_reply e n) = true)
  ∧ count_events is_ingest_post tr = 1%nat
  ∧ Log Error "Error during upload." ∈ tr
  ∧ List.filter is_delay tr = [Delay 1800].
Proof.
  cbv zeta. split; [done|]. split; [by vm_compute|]. split.
  - apply list_elem_of_In. vm_compute. tauto.
  - by vm_compute.
Qed.

(** ** The watermark client *)

(** C5.  When the status request fails, [GetSyncStatus] answers the zero
    watermark instead of raising, and the cycle goes on to extract with
    watermark 0 for every stream. *)
Theorem GetSyncStatus_fail_open (disk : ConfigFile) (farmId : string) (e : CycleEnv) :
  status_reply e = StatusThrows ->
  (GetSyncStatus (status_reply e) farmId).1 = Some (mkSyncStatusResponse 0 0 0 0)
  ∧ Log Error "Failed to contact Cloud API: {Message}"
      ∈ (GetSyncStatus (status_reply e) farmId).2
  ∧ (cycle_try disk farmId e).2
    = Some (FetchBatchData (host e) farmId 0 0 0 0 (dbName (LoadConfig disk).1)).1.
Proof.
  intros Hs. rewrite Hs. split; [done|]. split.
  - simpl. right. left.
  - unfold cycle_try. rewrite Hs.
    destruct (LoadConfig disk) as [config log1]. simpl.
    destruct (FetchBatchData _ _ _ _ _ _ _) as [payload log3].
    by destruct (Task_Delay _ _).
Qed.

(** A first installation whose status request fails. *)
Lemma GetSyncStatus_fail_open_witness :
  let e := farm_cycle first_run_db no_faults 1600000000 StatusThrows accepted in
  (GetSyncStatus (status_reply e) "farm").1 = Some (mkSyncStatusResponse 0 0 0 0)
  ∧ (cycle_try NoFile "farm" e).2
    = Some (FetchBatchData (host e) "farm" 0 0 0 0 "DelPro").1.
Proof.
  destruct (GetSyncStatus_fail_open NoFile "farm"
              (farm_cycle first_run_db no_faults 1600000000 StatusThrows accepted))
    as (H1 & _ & H2); [reflexivity|].
  split; [exact H1 | exact H2].
Defined.

(** ** Identity resolution *)

Lemma usable_None_iff (id : option string) :
  usable id = None <-> IsNullOrEmpty id = true.
Proof.
  unfold usable. destruct (IsNullOrEmpty id) eqn:E; [done|].
  destruct id; [|done]. split; discriminate.
Qed.

Lemma usable_Some (id : option string) :
  IsNullOrEmpty id = false -> usable id = id.
Proof. unfold usable. by intros ->. Qed.

(** What the worker's helpers answer, against the sources themselves. *)
Lemma LoadFarmIdFromConfig_persisted (disk : ConfigFile) :
  usable (LoadFarmIdFromConfig disk).1 = persisted_identity disk.
Proof. by destruct disk as [| |[stored|]]. Qed.

Lemma IsSuccessStatusCode_range (status : Z) :
  IsSuccessStatusCode status = bool_decide (200 ≤ status ≤ 299).
Proof.
  unfold IsSuccessStatusCode. case_bool_decide as H.
  - apply andb_true_iff. split; apply Z.leb_le; lia.
  - apply andb_false_iff.
    destruct (decide (200 ≤ status)); [right|left]; apply Z.leb_gt; lia.
Qed.

Lemma RegisterFarm_registered (s : StartupEnv) :
  IsInputRedirected s = false ->
  IsNullOrWhiteSpace (console_line s) = false ->
  usable (RegisterFarm (register_reply s) (default "" (console_line s))).1
  = registered_identity s.
Proof.
  intros Hi Hn. unfold registered_identity, RegisterFarm. rewrite Hi, Hn.
  destruct (register_reply s) as [|status generated]; [done|].
  rewrite IsSuccessStatusCode_range. by case_bool_decide.
Qed.

Lemma RegisterFarm_calls (reply : RegisterReply) (farmName : string) :
  List.filter is_register_post (RegisterFarm reply farmName).2
  = [HttpPostRegister farmName].
Proof.
  unfold RegisterFarm. destruct reply as [|status generated]; [done|].
  by destruct (IsSuccessStatusCode status).
Qed.

(** The value of [farmId] after the first two sources were consulted. *)
Lemma resolve_after_file (disk : ConfigFile) (s : StartupEnv) :
  usable (farm_id_from_env_or_file disk s).1
  = first_of (explicit_identity s) (persisted_identity disk).
Proof.
  unfold farm_id_from_env_or_file, explicit_identity.
  rewrite <- LoadFarmIdFromConfig_persisted.
  destruct (IsNullOrEmpty (startup_configuration s !! "FARM_ID")) eqn:E; simpl.
  - apply usable_None_iff in E. rewrite E. by case_bool_decide.
  - case_bool_decide; [done|]. simpl. rewrite usable_Some by done.
    destruct (startup_configuration s !! "FARM_ID"); [done|discriminate].
Qed.

Lemma first_of_None (a b : option string) :
  first_of a b = None <-> a = None ∧ b = None.
Proof. destruct a, b; simpl; split; try done; by intros []. Qed.

Lemma resolve_farm_id_result (disk : ConfigFile) (s : StartupEnv) :
  (resolve_farm_id disk s).1 = identity_by_order disk s.
Proof.
  unfold identity_by_order.
  pose proof (resolve_after_file disk s) as Hfile.
  pose proof (RegisterFarm_registered s) as Hreg.
  unfold resolve_farm_id.
  destruct (farm_id_from_env_or_file disk s) as [farmId log1]. simpl in Hfile.
  destruct (IsNullOrEmpty farmId) eqn:Hnull.
  - apply usable_None_iff in Hnull as Hnone. rewrite Hnone in Hfile.
    symmetry in Hfile. apply first_of_None in Hfile as [-> ->]. simpl.
    destruct (IsInputRedirected s) eqn:Hi; simpl.
    { unfold registered_identity. by rewrite Hi. }
    destruct (IsNullOrWhiteSpace (console_line s)) eqn:Hn; simpl.
    { rewrite Hnull. unfold registered_identity. by rewrite Hi, Hn. }
    rewrite <- Hreg by done.
    destruct (RegisterFarm _ _) as [farmId' logr]. simpl.
    unfold usable. by destruct (IsNullOrEmpty farmId').
  - rewrite Hnull. simpl. rewrite usable_Some in Hfile by done.
    assert (is_Some farmId) as [id ->] by (by destruct farmId).
    destruct (explicit_identity s), (persisted_identity disk); simpl in *; congruence.
Qed.

Lemma farm_id_from_env_or_file_only_logs (disk : ConfigFile) (s : StartupEnv) :
  forallb is_log (farm_id_from_env_or_file disk s).2 = true.
Proof.
  unfold farm_id_from_env_or_file, LoadFarmIdFromConfig, LoadConfig.
  destruct (_ || _); [|done]. by destruct disk.
Qed.

(** The calls of the registration endpoint at start-up. *)
Lemma resolve_farm_id_register_posts (disk : ConfigFile) (s : StartupEnv) :
  List.filter is_register_post (resolve_farm_id disk s).2
  = registration_calls disk s.
Proof.
  unfold registration_calls.
  pose proof (resolve_after_file disk s) as Hfile.
  pose proof (farm_id_from_env_or_file_only_logs disk s) as Hlogs.
  apply (filter_only_logs is_register_post) in Hlogs; [|done].
  unfold resolve_farm_id.
  destruct (farm_id_from_env_or_file disk s) as [farmId log1].
  simpl in Hfile, Hlogs. rewrite <- Hfile.
  destruct (IsNullOrEmpty farmId) eqn:Hnull.
  - apply usable_None_iff in Hnull as Hnone. rewrite Hnone.
    destruct (IsInputRedirected s); simpl.
    { by rewrite List.filter_app, Hlogs. }
    destruct (IsNullOrWhiteSpace (console_line s)); simpl.
    { rewrite Hnull. simpl. by rewrite !List.filter_app, Hlogs. }
    pose proof (RegisterFarm_calls (register_reply s) (default "" (console_line s)))
      as Hcall.
    destruct (RegisterFarm _ _) as [farmId' logr]. simpl in Hcall.
    destruct (IsNullOrEmpty farmId'); simpl;
      rewrite !List.filter_app, Hlogs; simpl;
      rewrite ?List.filter_app, Hcall; simpl; [done|].
    by destruct (file_writable s).
  - rewrite usable_Some by done.
    assert (is_Some farmId) as [id ->] by (by destruct farmId).
    rewrite Hnull. simpl. by rewrite !List.filter_app, Hlogs.
Qed.

Lemma resolve_farm_id_registers (disk : ConfigFile) (s : StartupEnv) :
  List.filter is_register_post (resolve_farm_id disk s).2 ≠ [] ->
  IsInputRedirected s = false
  ∧ explicit_identity s = None ∧ persisted_identity disk = None.
Proof.
  rewrite resolve_farm_id_register_posts. unfold registration_calls.
  destruct (first_of _ _) eqn:Hf; [done|].
  apply first_of_None in Hf as [-> ->].
  by destruct (IsInputRedirected s).
Qed.

Lemma resolve_farm_id_abort_logged (disk : ConfigFile) (s : StartupEnv) :
  (resolve_farm_id disk s).1 = None ->
  ∃ msg, last (resolve_farm_id disk s).2 = Some (Log Error msg).
Proof.
  unfold resolve_farm_id.
  destruct (farm_id_from_env_or_file disk s) as [farmId log1].
  destruct (IsNullOrEmpty farmId) eqn:Hnull.
  - destruct (IsInputRedirected s); simpl.
    + intros _. eexists. by rewrite last_app.
    + destruct (IsNullOrWhiteSpace (console_line s)); simpl.
      * rewrite Hnull. simpl. intros _. eexists. by rewrite !last_app.
      * destruct (RegisterFarm _ _) as [farmId' logr].
        destruct (IsNullOrEmpty farmId') eqn:Hn'; simpl.
        -- intros _. eexists.
           rewrite last_app, !last_cons, last_snoc. reflexivity.
        -- intros ->. done.
  - simpl. rewrite Hnull. simpl. intros ->. done.
Qed.

Lemma loop_exit_not_startup (disk : ConfigFile) (farmId : string)
    (envs : list CycleEnv) :
  (loop disk farmId envs).2 ≠ StartupReturned.
Proof.
  induction envs as [|e envs IH]; [done|]. simpl.
  unfold iteration. destruct (stop_at_test e); [done|].
  destruct (cycle_try disk farmId e) as [[tr [|]] p].
  - by destruct (loop disk farmId envs).
  - destruct (Task_Delay 60 (stop_in_wait e)) as [wait [|]]; [|done].
    by destruct (loop disk farmId envs).
Qed.

(** C6, as the code has it.  The identity [ExecuteAsync] starts the loop
    with is the first one yielded by, in this order, the explicit
    configuration value (where the placeholder UNKNOWN_FARM counts as no
    value), the identity stored in the configuration file, and
    interactive registration.  The registration endpoint is called
    exactly when the first two yielded nothing and a name was typed on an
    interactive console, once and with that name.  Unless the explicit
    value is the placeholder, this is the order as the claim words it.
    The method returns before the loop exactly when none of the three
    yields an identity, and then the last thing it did was to log an
    error. *)
Theorem startup_identity_resolution (disk : ConfigFile) (s : StartupEnv)
    (envs : list CycleEnv) :
  (resolve_farm_id disk s).1 = identity_by_order disk s
  ∧ List.filter is_register_post (resolve_farm_id disk s).2
    = registration_calls disk s
  ∧ (explicit_value s ≠ Some "UNKNOWN_FARM" ->
       identity_by_order disk s = identity_as_stated disk s)
  ∧ ((ExecuteAsync disk s envs).2 = StartupReturned <-> identity_by_order disk s = None)
  ∧ (identity_by_order disk s = None ->
       (ExecuteAsync disk s envs).1
       = Log Information "API Target: {ApiUrl}" :: (resolve_farm_id disk s).2
       ∧ ∃ msg, last (ExecuteAsync disk s envs).1 = Some (Log Error msg)).
Proof.
  pose proof (resolve_farm_id_result disk s) as Hres.
  pose proof (resolve_farm_id_abort_logged disk s) as Hlog.
  split; [done|]. split; [apply resolve_farm_id_register_posts|].
  split.
  { intros Hne. unfold identity_by_order, identity_as_stated. f_equal.
    unfold explicit_identity, explicit_value in *.
    case_bool_decide as Hv; [|done]. by rewrite Hv in Hne. }
  rewrite <- Hres. unfold ExecuteAsync.
  destruct (resolve_farm_id disk s) as [[id|] tr0]; simpl in *.
  - pose proof (loop_exit_not_startup (disk_after disk tr0) id envs) as Hne.
    destruct (loop (disk_after disk tr0) id envs) as [tr x]. simpl in *.
    split; [split; [done|discriminate]|discriminate].
  - split; [done|]. intros _. split; [done|].
    destruct (Hlog eq_refl) as [msg Hmsg]. exists msg.
    rewrite last_cons, Hmsg. done.
Qed.

(** C6 as stated fails for the placeholder.  FARM_ID is set to
    UNKNOWN_FARM: the explicit source holds a value, and the order of the
    claim resolves it.  The worker passes it over: with the file of an
    earlier registration it runs as farm-7, and with no file and no
    console it returns before the loop although the explicit value is
    set. *)
Lemma identity_counterexample_unknown_farm :
  explicit_value placeholder_start = Some "UNKNOWN_FARM"
  ∧ identity_as_stated registered_file placeholder_start = Some "UNKNOWN_FARM"
  ∧ (resolve_farm_id registered_file placeholder_start).1 = Some "farm-7"
  ∧ identity_as_stated NoFile placeholder_start = Some "UNKNOWN_FARM"
  ∧ (resolve_farm_id NoFile placeholder_start).1 = None
  ∧ (ExecuteAsync NoFile placeholder_start []).2 = StartupReturned.
Proof. vm_compute. repeat split. Qed.

(** ** The polling loop *)

Lemma UploadData_filter (q : Event -> bool) (post : nat -> PostReply)
    (p : IngestPayload) :
  (∀ l m, q (Log l m) = false) ->
  (∀ x, q (HttpPostIngest x) = false) ->
  List.filter q (UploadData post p) = [].
Proof.
  intros Hlog Hpost. unfold UploadData. case_decide; simpl; [by rewrite Hlog|].
  rewrite Hlog, Hpost.
  destruct (post 0%nat) as [|status [body|]]; simpl; rewrite ?Hlog; try done;
    destruct (IsSuccessStatusCode status); simpl; by rewrite Hlog.
Qed.

Lemma cycle_try_status_requests (disk : ConfigFile) (farmId : string) (e : CycleEnv) :
  count_events is_status_get (cycle_try disk farmId e).1.1 = 1%nat.
Proof.
  unfold count_events, cycle_try.
  destruct (LoadConfig disk) as [config log1] eqn:Ec.
  assert (H1 : List.filter is_status_get log1 = []).
  { apply filter_only_logs; [done|]. unfold LoadConfig in Ec.
    destruct disk; by inversion Ec. }
  destruct (GetSyncStatus (status_reply e) farmId) as [status log2] eqn:Eg.
  assert (H2 : length (List.filter is_status_get log2) = 1%nat).
  { unfold GetSyncStatus in Eg. destruct (status_reply e); by inversion Eg. }
  destruct status as [st|]; simpl.
  2:{ by rewrite List.filter_app, H1. }
  destruct (FetchBatchData _ _ _ _ _ _ _) as [payload log3] eqn:Ef.
  assert (H3 : List.filter is_status_get log3 = []).
  { apply filter_only_logs; [done|].
    pose proof (FetchBatchData_only_logs (host e) farmId (last_oid st)
                  (last_animal_oid st) (last_lactation_oid st)
                  (last_history_milk_diversion_oid st) (dbName config)) as H.
    by rewrite Ef in H. }
  destruct (Task_Delay _ _) as [wait completion] eqn:Ew.
  assert (H5 : List.filter is_status_get wait = []).
  { unfold Task_Delay in Ew. destruct (delay_in_range _); simpl in Ew;
      [destruct (stop_in_wait e)|]; by inversion Ew. }
  simpl. rewrite List.filter_app, H1, List.filter_app. simpl.
  rewrite List.filter_app, H3, List.filter_app, UploadData_filter by done.
  simpl. rewrite H5, app_nil_r. done.
Qed.


Lemma iteration_not_cancelled (disk : ConfigFile) (farmId : string) (e : CycleEnv) :
  stop_at_test e = false -> stop_in_wait e = false ->
  (iteration disk farmId e).2 = None
  ∧ count_events is_status_get (iteration disk farmId e).1 = 1%nat.
Proof.
  intros Ht Hw. pose proof (cycle_try_status_requests disk farmId e) as Hget.
  unfold iteration. rewrite Ht, Hw.
  destruct (cycle_try disk farmId e) as [[tr [|]] p]; simpl in *; [done|].
  split; [done|]. unfold count_events in *.
  rewrite List.filter_app, length_app, Hget. done.
Qed.





(** ** Fault containment in the extraction *)


Lemma fetch_sessions_rows (db : option Database) (f : ReaderFaults)
    (oneYearAgo : DateTime) (ws : Z) :
  (fetch_sessions db f oneYearAgo ws).1
  = (run_reader (fault_sessions f) (session_command db oneYearAgo ws)).1.
Proof.
  unfold fetch_sessions, session_command. case_decide.
  - by destruct (run_reader _ _).
  - by destruct (run_reader _ _).
Qed.




(** ** Persisted state *)

Lemma disk_after_no_write (disk : ConfigFile) (tr : list Event) :
  List.filter is_file_write tr = [] -> disk_after disk tr = disk.
Proof.
  unfold disk_after. revert disk.
  induction tr as [|ev tr IH]; intros disk Hnone; [done|].
  simpl in *. destruct ev; simpl in *; try discriminate; by apply IH.
Qed.

Lemma Task_Delay_no_write (seconds : Z) (cancelled : bool) :
  List.filter is_file_write (Task_Delay seconds cancelled).1 = [].
Proof.
  unfold Task_Delay. destruct (delay_in_range seconds); [|done].
  by destruct cancelled.
Qed.

Lemma cycle_try_no_write (disk : ConfigFile) (farmId : string) (e : CycleEnv) :
  List.filter is_file_write (cycle_try disk farmId e).1.1 = [].
Proof.
  destruct (cycle_try disk farmId e) as [[tr c] [p|]] eqn:Ec; simpl.
  - destruct (cycle_try_filter is_file_write disk farmId e tr c p) as
      (st & _ & _ & _ & Htr); [done|done|done|].
    by rewrite Htr, UploadData_filter, Task_Delay_no_write.
  - unfold cycle_try in Ec.
    destruct (LoadConfig disk) as [config log1] eqn:El.
    destruct (GetSyncStatus (status_reply e) farmId) as [[st|] log2] eqn:Eg.
    { destruct (FetchBatchData _ _ _ _ _ _ _). by destruct (Task_Delay _ _). }
    inversion Ec; subst. rewrite List.filter_app.
    unfold LoadConfig in El. unfold GetSyncStatus in Eg.
    destruct disk, (status_reply e); by inversion El; inversion Eg.
Qed.

Lemma iteration_no_write (disk : ConfigFile) (farmId : string) (e : CycleEnv) :
  List.filter is_file_write (iteration disk farmId e).1 = [].
Proof.
  pose proof (cycle_try_no_write disk farmId e) as Hc.
  unfold iteration. destruct (stop_at_test e); [done|].
  destruct (cycle_try disk farmId e) as [[tr [|]] p]; simpl in *; [done|].
  pose proof (Task_Delay_no_write 60 (stop_in_wait e)) as Hw.
  destruct (Task_Delay 60 (stop_in_wait e)) as [wait again]. simpl in *.
  rewrite List.filter_app, Hc. simpl. by rewrite Hw.
Qed.

Lemma loop_no_write (disk : ConfigFile) (farmId : string) (envs : list CycleEnv) :
  List.filter is_file_write (loop disk farmId envs).1 = [].
Proof.
  induction envs as [|e envs IH]; [done|]. simpl.
  pose proof (iteration_no_write disk farmId e) as Hi.
  destruct (iteration disk farmId e) as [tr [x|]]; simpl in *; [done|].
  destruct (loop disk farmId envs) as [tr' x']. simpl in *.
  by rewrite List.filter_app, Hi, IH.
Qed.

Lemma resolve_farm_id_write_registered (disk : ConfigFile) (s : StartupEnv) :
  List.filter is_file_write (resolve_farm_id disk s).2 ≠ [] ->
  List.filter is_register_post (resolve_farm_id disk s).2 ≠ [].
Proof.
  unfold resolve_farm_id.
  assert (Hlog : List.filter is_file_write (farm_id_from_env_or_file disk s).2 = []).
  { unfold farm_id_from_env_or_file, LoadFarmIdFromConfig, LoadConfig.
    destruct (_ || _); [|done]. by destruct disk. }
  destruct (farm_id_from_env_or_file disk s) as [farmId log1]. simpl in Hlog.
  destruct (IsNullOrEmpty farmId) eqn:Hnull.
  - destruct (IsInputRedirected s); simpl.
    { rewrite List.filter_app, Hlog. done. }
    destruct (IsNullOrWhiteSpace (console_line s)); simpl.
    { rewrite Hnull. simpl. rewrite List.filter_app, Hlog. done. }
    unfold RegisterFarm.
    destruct (register_reply s) as [|status id]; simpl.
    { rewrite !List.filter_app, Hlog. done. }
    destruct (IsSuccessStatusCode status); simpl.
    + intros _. destruct (IsNullOrEmpty id); simpl;
        rewrite !List.filter_app; simpl;
        intros Habs; by apply app_eq_nil in Habs as [_ Habs].
    + rewrite !List.filter_app, Hlog. done.
  - simpl. rewrite Hnull. simpl. rewrite !List.filter_app, Hlog. done.
Qed.

(** C9, as the code has it.  A cycle - in particular one whose upload
    failed - writes no file: the configuration file after it is the file
    before it, no loop ever writes it, and start-up writes it only after
    it called the registration endpoint.  A cycle run again on the same
    host (same local store, same configuration, same one-year cutoff
    date, same mock source) with the same status reply extracts the same
    payload as the first run. *)
Theorem failed_cycle_keeps_state (disk : ConfigFile) (farmId : string)
    (e1 e2 : CycleEnv) :
  host e2 = host e1 ->
  status_reply e2 = status_reply e1 ->
  disk_after disk (iteration disk farmId e1).1 = disk
  ∧ (cycle_try (disk_after disk (iteration disk farmId e1).1) farmId e2).2
    = (cycle_try disk farmId e1).2
  ∧ (∀ envs, List.filter is_file_write (loop disk farmId envs).1 = [])
  ∧ (∀ s, List.filter is_file_write (resolve_farm_id disk s).2 ≠ [] ->
          List.filter is_register_post (resolve_farm_id disk s).2 ≠ []).
Proof.
  intros Hhost Hstatus.
  assert (Hdisk : disk_after disk (iteration disk farmId e1).1 = disk)
    by apply disk_after_no_write, iteration_no_write.
  split; [done|]. split; [|split].
  - rewrite Hdisk. unfold cycle_try. rewrite Hhost, Hstatus.
    destruct (LoadConfig disk) as [config log1].
    destruct (GetSyncStatus (status_reply e1) farmId) as [[st|] log2]; [|done].
    destruct (FetchBatchData _ _ _ _ _ _ _) as [payload log3].
    by destruct (Task_Delay _ (stop_in_wait e2)), (Task_Delay _ (stop_in_wait e1)).
  - apply loop_no_write.
  - apply resolve_farm_id_write_registered.
Qed.

(** The same cycle twice, the ingest endpoint unreachable. *)
Lemma failed_cycle_keeps_state_witness :
  let e := farm_cycle herd_db no_faults 200 watermark_1 unreachable in
  post_failed (post_reply e 0%nat) = true
  ∧ disk_after negative_interval (iteration negative_interval "farm" e).1
    = negative_interval
  ∧ (cycle_try (disk_after negative_interval (iteration negative_interval "farm" e).1)
       "farm" e).2
    = (cycle_try negative_interval "farm" e).2.
Proof.
  destruct (failed_cycle_keeps_state negative_interval "farm"
              (farm_cycle herd_db no_faults 200 watermark_1 unreachable)
              (farm_cycle herd_db no_faults 200 watermark_1 unreachable))
    as (Hd & Hp & _); try reflexivity.
  split; [reflexivity|]. split; [exact Hd | exact Hp].
Defined.

(** C9 as stated fails across midnight.  The upload of the first cycle
    fails; the local store and the status reply are the same a day later,
    but the one-year cutoff has moved past the exit date of animal 6, and
    the cycle run again no longer selects it. *)
Lemma rerun_counterexample_next_day :
  let e1 := farm_cycle exit_db no_faults cutoff_day1 watermark_1 unreachable in
  let e2 := farm_cycle exit_db no_faults cutoff_day2 watermark_1 unreachable in
  let disk' := disk_after NoFile (iteration NoFile "farm" e1).1 in
  sql (host e2) = sql (host e1)
  ∧ status_reply e2 = status_reply e1
  ∧ post_failed (post_reply e1 0%nat) = true
  ∧ basic_animals <$> (cycle_try NoFile "farm" e1).2 = Some [animal 6 (Some 1700050000)]
  ∧ basic_animals <$> (cycle_try disk' "farm" e2).2 = Some [].
Proof. vm_compute. repeat split. Qed.

(** * Further properties of the worker *)

(** ** The base address of the cloud API *)

Lemma occurs_Replace_same (c : ascii) (s : string) :
  occurs c (Replace_by_empty c s) = false.
Proof.
  induction s as [|x s IH]; [done|]. simpl.
  destruct (decide (x = c)); [done|].
  simpl. rewrite IH. by rewrite bool_decide_eq_false_2.
Qed.

Lemma occurs_Replace_other (c d : ascii) (s : string) :
  occurs c s = false -> occurs c (Replace_by_empty d s) = false.
Proof.
  induction s as [|x s IH]; [done|]. simpl.
  intros [Hx Hs]%orb_false_iff. destruct (decide (x = d)); [by apply IH|].
  simpl. by rewrite Hx, IH.
Qed.

Lemma occurs_TrimStart (c : ascii) (s : string) :
  occurs c s = false -> occurs c (TrimStart s) = false.
Proof.
  induction s as [|x s IH]; [done|]. simpl.
  intros Hc. destruct (IsWhiteSpace x); [|done].
  apply IH. by apply orb_false_iff in Hc as [_ ?].
Qed.

Lemma occurs_TrimEnd (c : ascii) (s : string) :
  occurs c s = false -> occurs c (TrimEnd s) = false.
Proof.
  induction s as [|x s IH]; [done|]. simpl.
  intros [Hx Hs]%orb_false_iff. specialize (IH Hs).
  destruct (TrimEnd s) as [|y t].
  - destruct (IsWhiteSpace x); [done|]. simpl. by rewrite Hx.
  - simpl in *. by rewrite Hx, IH.
Qed.

Lemma starts_with_white_TrimStart (s : string) :
  starts_with_white (TrimStart s) = false.
Proof.
  induction s as [|x s IH]; [done|]. simpl.
  destruct (IsWhiteSpace x) eqn:Hx; [done|]. simpl. by rewrite Hx.
Qed.

Lemma starts_with_white_TrimEnd (s : string) :
  starts_with_white s = false -> starts_with_white (TrimEnd s) = false.
Proof.
  destruct s as [|x s]; [done|]. simpl. intros Hx.
  destruct (TrimEnd s); by rewrite ?Hx.
Qed.

Lemma ends_with_white_TrimEnd (s : string) :
  ends_with_white (TrimEnd s) = false.
Proof.
  induction s as [|x s IH]; [done|]. simpl.
  destruct (TrimEnd s) as [|y t] eqn:Et.
  - by destruct (IsWhiteSpace x) eqn:Hx; simpl; rewrite ?Hx.
  - done.
Qed.

Lemma Replace_by_empty_absent (c : ascii) (s : string) :
  occurs c s = false -> Replace_by_empty c s = s.
Proof.
  induction s as [|x s IH]; [done|]. simpl.
  intros [Hx Hs]%orb_false_iff. apply bool_decide_eq_false in Hx.
  rewrite decide_False by done. by rewrite IH.
Qed.

Lemma TrimStart_clean (s : string) :
  starts_with_white s = false -> TrimStart s = s.
Proof. destruct s as [|x s]; [done|]. simpl. by intros ->. Qed.

Lemma TrimEnd_clean (s : string) :
  ends_with_white s = false -> TrimEnd s = s.
Proof.
  induction s as [|x s IH]; [done|]. simpl.
  destruct s as [|y t].
  - simpl. by intros ->.
  - intros Hs. rewrite IH by done. done.
Qed.

(** X1.  Whatever the configuration holds under API_BASE_URL, the base
    address the worker keeps has no double quote and no single quote in
    it and neither starts nor ends with white space. *)
Theorem SyncWorker_apiBaseUrl_clean (configuration : gmap string string) :
  let url := SyncWorker_apiBaseUrl configuration in
  occurs double_quote url = false
  ∧ occurs single_quote url = false
  ∧ starts_with_white url = false
  ∧ ends_with_white url = false.
Proof.
  cbv zeta. unfold SyncWorker_apiBaseUrl, Trim.
  set (url := if IsNullOrEmpty _ then _ else _).
  repeat split.
  - apply occurs_TrimEnd, occurs_TrimStart, occurs_Replace_other,
      occurs_Replace_same.
  - apply occurs_TrimEnd, occurs_TrimStart, occurs_Replace_same.
  - apply starts_with_white_TrimEnd, starts_with_white_TrimStart.
  - apply ends_with_white_TrimEnd.
Qed.

Lemma Trim_stable (s : string) : Trim (Trim s) = Trim s.
Proof.
  unfold Trim at 1.
  rewrite TrimStart_clean
    by apply starts_with_white_TrimEnd, starts_with_white_TrimStart.
  apply TrimEnd_clean, ends_with_white_TrimEnd.
Qed.


(** X2.  The base address is stable: a base address that is not empty,
    written back under API_BASE_URL, is resolved to itself. *)
Theorem SyncWorker_apiBaseUrl_stable (configuration : gmap string string) :
  SyncWorker_apiBaseUrl configuration ≠ "" ->
  SyncWorker_apiBaseUrl
    (<["API_BASE_URL" := SyncWorker_apiBaseUrl configuration]> configuration)
  = SyncWorker_apiBaseUrl configuration.
Proof.
  intros Hne.
  set (url := SyncWorker_apiBaseUrl configuration) in *.
  unfold SyncWorker_apiBaseUrl at 1. rewrite lookup_insert_eq.
  assert (IsNullOrEmpty (Some url) = false) as ->.
  { simpl. by rewrite decide_False. }
  simpl.
  rewrite (Replace_by_empty_absent double_quote url).
  2:{ apply occurs_TrimEnd, occurs_TrimStart, occurs_Replace_other,
        occurs_Replace_same. }
  rewrite (Replace_by_empty_absent single_quote url).
  2:{ apply occurs_TrimEnd, occurs_TrimStart, occurs_Replace_same. }
  apply Trim_stable.
Qed.

Lemma SyncWorker_apiBaseUrl_stable_witness :
  SyncWorker_apiBaseUrl
    (<["API_BASE_URL" := SyncWorker_apiBaseUrl {[ "API_BASE_URL" := " 'https://api.example.org' " ]}]>
       {[ "API_BASE_URL" := " 'https://api.example.org' " ]})
  = "https://api.example.org".
Proof.
  rewrite (SyncWorker_apiBaseUrl_stable
             {[ "API_BASE_URL" := " 'https://api.example.org' " ]}).
  - reflexivity.
  - vm_compute. discriminate.
Defined.

Lemma Replace_only_quotes_and_blanks (c : ascii) (s : string) :
  only_quotes_and_blanks s = true ->
  only_quotes_and_blanks (Replace_by_empty c s) = true.
Proof.
  induction s as [|x s IH]; [done|]. simpl.
  intros [Hx Hs]%andb_true_iff. destruct (decide (x = c)); [by apply IH|].
  simpl. by rewrite Hx, IH.
Qed.

Lemma TrimStart_all_white (s : string) :
  all_white s = true -> TrimStart s = "".
Proof.
  induction s as [|x s IH]; [done|]. simpl.
  intros [Hx Hs]%andb_true_iff. rewrite Hx. by apply IH.
Qed.

Lemma only_blanks_after_Replace (s : string) :
  only_quotes_and_blanks s = true ->
  all_white (Replace_by_empty single_quote (Replace_by_empty double_quote s)) = true.
Proof.
  induction s as [|x s IH]; [done|]. simpl.
  intros [Hx Hs]%andb_true_iff. specialize (IH Hs).
  destruct (decide (x = double_quote)) as [->|Hd]; [done|]. simpl.
  destruct (decide (x = single_quote)) as [->|Hq]; [done|]. simpl.
  rewrite IH, andb_true_r.
  by rewrite !bool_decide_eq_false_2 in Hx by done.
Qed.

(** X3.  The default address stands in only for a value that is unset or
    empty: a value that is not empty but holds nothing except quotes and
    white space leaves the worker with the empty base address. *)
Theorem SyncWorker_apiBaseUrl_only_quotes (configuration : gmap string string)
    (value : string) :
  configuration !! "API_BASE_URL" = Some value ->
  value ≠ "" ->
  only_quotes_and_blanks value = true ->
  SyncWorker_apiBaseUrl configuration = "".
Proof.
  intros Hv Hne Hq. unfold SyncWorker_apiBaseUrl. rewrite Hv.
  assert (IsNullOrEmpty (Some value) = false) as ->.
  { simpl. by rewrite decide_False. }
  simpl. unfold Trim.
  by rewrite TrimStart_all_white by by apply only_blanks_after_Replace.
Qed.

Lemma SyncWorker_apiBaseUrl_only_quotes_witness :
  SyncWorker_apiBaseUrl {[ "API_BASE_URL" := " '' " ]} = "".
Proof.
  apply (SyncWorker_apiBaseUrl_only_quotes _ " '' ").
  - reflexivity.
  - discriminate.
  - reflexivity.
Defined.

(** ** The connection string and mock mode *)

Lemma prefix_append (pat s b : string) :
  String.prefix pat s = true -> String.prefix pat (s +:+ b) = true.
Proof.
  revert s. induction pat as [|c pat IH]; intros s.
  - intros _. by destruct (s +:+ b).
  - destruct s as [|x s]; [done|]. simpl.
    destruct (ascii_dec c x); [apply IH|done].
Qed.

Lemma Contains_append_r (s pat b : string) :
  Contains s pat = true -> Contains (s +:+ b) pat = true.
Proof.
  induction s as [|x s IH]; simpl.
  - destruct pat as [|c pat']; simpl; [intros _; by destruct b|done].
  - intros [Hp|Hs]%orb_true_iff.
    + apply (prefix_append _ (String x s) b) in Hp. simpl in Hp. by rewrite Hp.
    + rewrite (IH Hs). apply orb_true_r.
Qed.

Lemma Contains_append_l (a s pat : string) :
  Contains s pat = true -> Contains (a +:+ s) pat = true.
Proof.
  intros Hs. induction a as [|x a IH]; [done|]. simpl.
  rewrite IH. apply orb_true_r.
Qed.

Lemma GetConnectionString_not_empty (h : Host) (databaseName : string) :
  IsNullOrEmpty (Some (GetConnectionString h databaseName).1) = false.
Proof.
  unfold GetConnectionString.
  destruct (IsNullOrEmpty (configuration h !! "ConnectionStrings:DelProDb")) eqn:E;
    simpl.
  - by destruct (is_windows h).
  - by destruct (configuration h !! "ConnectionStrings:DelProDb").
Qed.

(** X4.  The connection string is never empty, so the word Placeholder
    alone decides mock mode.  With no connection string configured, a
    database name that contains Placeholder puts the worker in mock mode:
    the payload is the mock batch and the server is not consulted. *)
Theorem database_name_triggers_mock_mode (h : Host) (farmId : string)
    (ws wa wl wd : Z) (databaseName : string) :
  IsNullOrEmpty (configuration h !! "ConnectionStrings:DelProDb") = true ->
  Contains databaseName "Placeholder" = true ->
  IsMockMode (Some (GetConnectionString h databaseName).1)
  = Contains (GetConnectionString h databaseName).1 "Placeholder"
  ∧ (FetchBatchData h farmId ws wa wl wd databaseName).1
    = FetchMockIncrementalBatch (mock_source h) farmId ws.
Proof.
  intros Hnull Hdb.
  assert (Hmock : IsMockMode (Some (GetConnectionString h databaseName).1)
                  = Contains (GetConnectionString h databaseName).1 "Placeholder").
  { unfold IsMockMode. by rewrite GetConnectionString_not_empty. }
  split; [done|]. apply FetchBatchData_mock. rewrite Hmock.
  unfold GetConnectionString. rewrite Hnull. simpl negb. cbv iota.
  destruct (is_windows h); simpl fst;
    by apply Contains_append_l, Contains_append_r.
Qed.

(** A host with no connection string and the database PlaceholderFarm. *)
Lemma database_name_triggers_mock_mode_witness :
  let h := mkHost ∅ true (mkSqlServer (λ _, true) {[ "DelPro" := herd_db ]} no_faults)
             200 (mkMockSource 7 (λ _, session 0)) in
  (FetchBatchData h "farm" 40 1 1 1 "PlaceholderFarm").1
  = mkIngestPayload "farm" [] [] [session 41; session 42; session 43] [] [] [].
Proof.
  destruct (database_name_triggers_mock_mode
              (mkHost ∅ true
                 (mkSqlServer (λ _, true) {[ "DelPro" := herd_db ]} no_faults)
                 200 (mkMockSource 7 (λ _, session 0)))
              "farm" 40 1 1 1 "PlaceholderFarm") as [_ H]; [reflexivity..|].
  cbv zeta. rewrite H. reflexivity.
Defined.

(** ** The mock batch *)

Lemma wrap64_in_range (z : Z) : - 2 ^ 63 ≤ z < 2 ^ 63 -> wrap64 z = z.
Proof. intros Hz. unfold wrap64. rewrite Z.mod_small; lia. Qed.

(** X5.  For a watermark at least 3 below the largest [long], the mock
    batch either is empty (draw below 3) or holds exactly three sessions
    whose identifiers are the three integers right above the watermark,
    in ascending order; no other stream gets a row. *)
Theorem FetchMockIncrementalBatch_shape (m : MockSource) (farmId : string)
    (lastOid : Z) :
  - 2 ^ 63 ≤ lastOid -> lastOid + 3 < 2 ^ 63 ->
  let p := FetchMockIncrementalBatch m farmId lastOid in
  basic_animals p = [] ∧ lactations_summary p = []
  ∧ voluntary_sessions_milk_yield p = []
  ∧ history_milk_diversion_info p = [] ∧ history_animals p = []
  ∧ (Next_0_10 m < 3 -> sessions_milk_yield p = [])
  ∧ (3 ≤ Next_0_10 m ->
       DelproSessionsMilkYield.OID <$> sessions_milk_yield p
       = [Some (lastOid + 1); Some (lastOid + 2); Some (lastOid + 3)]).
Proof.
  intros Hlo Hhi. cbv zeta. unfold FetchMockIncrementalBatch.
  case_decide as Hdraw; simpl.
  - repeat split; try done. intros Hge. lia.
  - repeat split; try done. intros _.
    rewrite (wrap64_in_range (lastOid + 1)) by lia.
    rewrite !wrap64_in_range by lia. simpl.
    f_equal; [f_equal; lia|]. f_equal; [f_equal; lia|].
    f_equal. f_equal. lia.
Qed.

Lemma FetchMockIncrementalBatch_shape_witness :
  DelproSessionsMilkYield.OID
    <$> sessions_milk_yield
          (FetchMockIncrementalBatch (mkMockSource 7 (λ _, session 0)) "farm" 40)
  = [Some 41; Some 42; Some 43].
Proof.
  destruct (FetchMockIncrementalBatch_shape (mkMockSource 7 (λ _, session 0))
              "farm" 40) as (_ & _ & _ & _ & _ & _ & H); [lia..|].
  apply H. simpl. lia.
Defined.

(** ** Registration and the configuration file *)

Lemma disk_after_app (disk : ConfigFile) (l1 l2 : list Event) :
  disk_after disk (l1 ++ l2) = disk_after (disk_after disk l1) l2.
Proof. apply foldl_app. Qed.

Lemma farm_id_from_env_or_file_no_write (disk : ConfigFile) (s : StartupEnv) :
  List.filter is_file_write (farm_id_from_env_or_file disk s).2 = [].
Proof.
  unfold farm_id_from_env_or_file, LoadFarmIdFromConfig, LoadConfig.
  destruct (_ || _); [|done]. by destruct disk.
Qed.

Lemma usable_fixed (x : option string) (id : string) :
  usable x = Some id -> usable (Some id) = Some id.
Proof.
  unfold usable. destruct (IsNullOrEmpty x) eqn:Hn; [done|].
  intros ->. by rewrite Hn.
Qed.

Lemma resolve_farm_id_registration (disk : ConfigFile) (s : StartupEnv) (id : string) :
  explicit_identity s = None ->
  persisted_identity disk = None ->
  registered_identity s = Some id ->
  (resolve_farm_id disk s).1 = Some id
  ∧ disk_after disk (resolve_farm_id disk s).2
    = if file_writable s then Json (Some (new_AgentConfig id)) else disk.
Proof.
  intros He Hp Hr.
  pose proof (resolve_after_file disk s) as Hfile. rewrite He, Hp in Hfile.
  pose proof (farm_id_from_env_or_file_no_write disk s) as Hlog.
  unfold resolve_farm_id.
  destruct (farm_id_from_env_or_file disk s) as [farmId log1]. simpl in *.
  apply usable_None_iff in Hfile. rewrite Hfile.
  pose proof Hr as Hr'. unfold registered_identity in Hr'.
  destruct (IsInputRedirected s) eqn:Hi; [done|]. simpl.
  destruct (IsNullOrWhiteSpace (console_line s)) eqn:Hb; [done|]. simpl.
  pose proof (RegisterFarm_registered s Hi Hb) as Hrf. rewrite Hr in Hrf.
  assert (Hreg : List.filter is_file_write
                   (RegisterFarm (register_reply s) (default "" (console_line s))).2
                 = []).
  { unfold RegisterFarm. destruct (register_reply s) as [|status fid]; [done|].
    by destruct (IsSuccessStatusCode status). }
  destruct (RegisterFarm _ _) as [farmId' logr]. simpl in *.
  unfold usable in Hrf. destruct (IsNullOrEmpty farmId') eqn:Hn; [done|].
  subst farmId'. simpl. split; [done|].
  rewrite !disk_after_app. rewrite (disk_after_no_write disk log1) by done.
  simpl. rewrite !disk_after_app.
  rewrite (disk_after_no_write disk logr) by done.
  unfold SaveFarmIdToConfig. by destruct (file_writable s).
Qed.

(** X6.  After a registration that succeeded and could write the file,
    the worker needs no console and no registration again: any later
    start-up without an explicit FARM_ID resolves the same identity from
    the file and does not call the registration endpoint. *)
Theorem registration_survives_restart (disk : ConfigFile) (s s' : StartupEnv)
    (id : string) :
  explicit_identity s = None ->
  persisted_identity disk = None ->
  registered_identity s = Some id ->
  file_writable s = true ->
  explicit_identity s' = None ->
  let disk' := disk_after disk (resolve_farm_id disk s).2 in
  (resolve_farm_id disk' s').1 = Some id
  ∧ List.filter is_register_post (resolve_farm_id disk' s').2 = [].
Proof.
  intros He Hp Hr Hw He' disk'.
  destruct (resolve_farm_id_registration disk s id He Hp Hr) as [Hid Hdisk].
  rewrite Hw in Hdisk. subst disk'. rewrite Hdisk.
  assert (Hpers : persisted_identity (Json (Some (new_AgentConfig id))) = Some id).
  { simpl. unfold registered_identity in Hr.
    destruct (IsInputRedirected s); [done|].
    destruct (IsNullOrWhiteSpace (console_line s)); [done|].
    destruct (register_reply s) as [|status generated]; [done|].
    case_bool_decide; [|done]. by apply usable_fixed in Hr. }
  split.
  - rewrite resolve_farm_id_result. unfold identity_by_order.
    by rewrite He', Hpers.
  - destruct (List.filter is_register_post _) eqn:Hf; [done|].
    destruct (resolve_farm_id_registers (Json (Some (new_AgentConfig id))) s')
      as (_ & _ & Hnone); [by rewrite Hf|]. congruence.
Qed.

Lemma registration_survives_restart_witness :
  let disk' := disk_after NoFile
                 (resolve_farm_id NoFile (console_registration "farm-42")).2 in
  (resolve_farm_id disk' unattended_start).1 = Some "farm-42"
  ∧ List.filter is_register_post (resolve_farm_id disk' unattended_start).2 = [].
Proof.
  apply (registration_survives_restart NoFile (console_registration "farm-42")
           unattended_start "farm-42"); reflexivity.
Defined.

(** X7.  A successful registration replaces the whole file: the database
    name and the polling interval an operator had put there (in a file
    without identity) are gone, and the cycles that follow use the
    database DelPro and the interval of 1800 seconds. *)
Theorem registration_resets_settings (disk : ConfigFile) (s : StartupEnv)
    (id : string) :
  explicit_identity s = None ->
  persisted_identity disk = None ->
  registered_identity s = Some id ->
  file_writable s = true ->
  let disk' := disk_after disk (resolve_farm_id disk s).2 in
  dbName (LoadConfig disk').1 = "DelPro"
  ∧ currentInterval (LoadConfig disk').1 = 1800.
Proof.
  intros He Hp Hr Hw disk'.
  destruct (resolve_farm_id_registration disk s id He Hp Hr) as [_ Hdisk].
  rewrite Hw in Hdisk. subst disk'. by rewrite Hdisk.
Qed.

Lemma registration_resets_settings_witness :
  (dbName (LoadConfig prepared_file).1 = "Farm2"
   ∧ currentInterval (LoadConfig prepared_file).1 = 600)
  ∧ let disk' := disk_after prepared_file
                   (resolve_farm_id prepared_file (console_registration "farm-42")).2 in
    dbName (LoadConfig disk').1 = "DelPro"
    ∧ currentInterval (LoadConfig disk').1 = 1800.
Proof.
  split; [split; reflexivity|].
  apply (registration_resets_settings prepared_file
           (console_registration "farm-42") "farm-42"); reflexivity.
Defined.

(** ** One identity for the whole run *)

Lemma only_logs_carry (farmId : string) (tr : list Event) :
  forallb is_log tr = true -> Forall (carries_identity farmId) tr.
Proof.
  intros Hall. pose proof (proj1 (forallb_forall is_log tr) Hall) as Hin.
  apply Forall_forall. intros ev Hev%list_elem_of_In%Hin. by destruct ev.
Qed.

Lemma UploadData_carries (farmId : string) (post : nat -> PostReply)
    (p : IngestPayload) :
  farm_id p = farmId -> Forall (carries_identity farmId) (UploadData post p).
Proof.
  intros Hp. unfold UploadData. case_decide; [by repeat constructor|].
  repeat constructor; [done|].
  destruct (post 0%nat) as [|status [body|]]; [by repeat constructor| |];
    destruct (IsSuccessStatusCode status); by repeat constructor.
Qed.

Lemma cycle_try_carries (disk : ConfigFile) (farmId : string) (e : CycleEnv) :
  Forall (carries_identity farmId) (cycle_try disk farmId e).1.1.
Proof.
  unfold cycle_try.
  destruct (LoadConfig disk) as [config log1] eqn:El.
  assert (H1 : Forall (carries_identity farmId) log1).
  { unfold LoadConfig in El. destruct disk; inversion El; by repeat constructor. }
  destruct (GetSyncStatus (status_reply e) farmId) as [status log2] eqn:Eg.
  assert (H2 : Forall (carries_identity farmId) log2).
  { unfold GetSyncStatus in Eg.
    destruct (status_reply e); inversion Eg; by repeat constructor. }
  destruct status as [st|]; simpl; [|by apply Forall_app].
  pose proof (FetchBatchData_only_logs (host e) farmId (last_oid st)
                (last_animal_oid st) (last_lactation_oid st)
                (last_history_milk_diversion_oid st) (dbName config)) as H3.
  pose proof (FetchBatchData_farm_id (host e) farmId (last_oid st)
                (last_animal_oid st) (last_lactation_oid st)
                (last_history_milk_diversion_oid st) (dbName config)) as Hid.
  destruct (FetchBatchData _ _ _ _ _ _ _) as [payload log3]. simpl in H3, Hid.
  destruct (Task_Delay _ _) as [wait completion] eqn:Ew. simpl.
  assert (H5 : Forall (carries_identity farmId) wait).
  { unfold Task_Delay in Ew. destruct (delay_in_range _); simpl in Ew;
      [destruct (stop_in_wait e)|]; inversion Ew; by repeat constructor. }
  repeat match goal with
         | |- Forall _ (_ ++ _) => apply Forall_app; split
         | |- Forall _ (_ :: _) => constructor
         end; try done.
  - by apply only_logs_carry.
  - by apply UploadData_carries.
Qed.

Lemma loop_carries (disk : ConfigFile) (farmId : string) (envs : list CycleEnv) :
  Forall (carries_identity farmId) (loop disk farmId envs).1.
Proof.
  induction envs as [|e envs IH]; [by constructor|]. simpl.
  assert (Hi : Forall (carries_identity farmId) (iteration disk farmId e).1).
  { pose proof (cycle_try_carries disk farmId e) as Hc. unfold iteration.
    destruct (stop_at_test e); [by constructor|].
    destruct (cycle_try disk farmId e) as [[tr [|]] p]; simpl in *; [done|].
    destruct (Task_Delay 60 (stop_in_wait e)) as [wait again] eqn:Ew. simpl.
    apply Forall_app. split; [done|]. constructor; [done|].
    unfold Task_Delay in Ew. simpl in Ew.
    destruct (stop_in_wait e); inversion Ew; by repeat constructor. }
  destruct (iteration disk farmId e) as [tr [x|]]; simpl in *; [done|].
  destruct (loop disk farmId envs) as [tr' x']. simpl in *.
  by apply Forall_app.
Qed.

(** Start-up makes no status request and posts no payload. *)
Lemma resolve_farm_id_filter (q : Event -> bool) (disk : ConfigFile)
    (s : StartupEnv) :
  (∀ l m, q (Log l m) = false) ->
  (∀ n, q (HttpPostRegister n) = false) ->
  (∀ c, q (FileWriteConfig c) = false) ->
  q ConsoleReadLine = false ->
  List.filter q (resolve_farm_id disk s).2 = [].
Proof.
  intros Hlog Hreg Hfile Hread. unfold resolve_farm_id.
  assert (H1 : List.filter q (farm_id_from_env_or_file disk s).2 = []).
  { unfold farm_id_from_env_or_file, LoadFarmIdFromConfig, LoadConfig.
    destruct (_ || _); [|done]. destruct disk; simpl; by rewrite ?Hlog. }
  destruct (farm_id_from_env_or_file disk s) as [farmId log1]. simpl in H1.
  assert (H2 : List.filter q
                 (RegisterFarm (register_reply s) (default "" (console_line s))).2
               = []).
  { unfold RegisterFarm. destruct (register_reply s) as [|status fid]; simpl.
    - by rewrite Hreg, Hlog.
    - destruct (IsSuccessStatusCode status); simpl; by rewrite Hreg, ?Hlog. }
  assert (H3 : ∀ w fid, List.filter q (SaveFarmIdToConfig w fid) = []).
  { intros [|] fid; simpl; by rewrite ?Hfile, ?Hlog. }
  destruct (IsNullOrEmpty farmId) eqn:Hn.
  - destruct (IsInputRedirected s); simpl.
    { rewrite List.filter_app, H1. simpl. by rewrite !Hlog. }
    destruct (IsNullOrWhiteSpace (console_line s)); simpl.
    { rewrite Hn. simpl. rewrite !List.filter_app, H1. simpl.
      by rewrite !Hlog, Hread. }
    destruct (RegisterFarm _ _) as [fid logr]. simpl in H2.
    destruct (IsNullOrEmpty fid); simpl;
      rewrite !List.filter_app, H1; simpl; rewrite !Hlog, Hread;
      rewrite ?List.filter_app, H2, ?H3; simpl; by rewrite ?Hlog.
  - simpl. rewrite Hn. simpl. rewrite !List.filter_app, H1. simpl.
    by rewrite Hlog.
Qed.

(** X8.  The identity resolved at start-up is the identity of the whole
    run: every status request names it and every payload posted to the
    ingest endpoint carries it, in every cycle, whatever the
    configuration file says later. *)
Theorem ExecuteAsync_one_identity (disk : ConfigFile) (s : StartupEnv)
    (envs : list CycleEnv) (id : string) :
  (resolve_farm_id disk s).1 = Some id ->
  Forall (carries_identity id) (ExecuteAsync disk s envs).1.
Proof.
  intros Hid. unfold ExecuteAsync.
  assert (H0 : Forall (carries_identity id) (resolve_farm_id disk s).2).
  { apply Forall_forall. intros ev Hev.
    destruct ev as [| f | p | | | | |]; try done; exfalso.
    - assert (Hin : In (HttpGetStatus f)
                      (List.filter is_status_get (resolve_farm_id disk s).2)).
      { apply filter_In. split; [by apply list_elem_of_In|done]. }
      by rewrite resolve_farm_id_filter in Hin.
    - assert (Hin : In (HttpPostIngest p)
                      (List.filter is_ingest_post (resolve_farm_id disk s).2)).
      { apply filter_In. split; [by apply list_elem_of_In|done]. }
      by rewrite resolve_farm_id_filter in Hin. }
  destruct (resolve_farm_id disk s) as [farmId tr0]. simpl in *. subst farmId.
  pose proof (loop_carries (disk_after disk tr0) id envs) as Hl.
  destruct (loop (disk_after disk tr0) id envs) as [tr x]. simpl in *.
  constructor; [done|]. by apply Forall_app.
Qed.

Lemma ExecuteAsync_one_identity_witness :
  Forall (carries_identity "farm-42")
    (ExecuteAsync NoFile (console_registration "farm-42")
       [farm_cycle herd_db no_faults 200 watermark_1 accepted;
        farm_cycle herd_db no_faults 200 StatusThrows unreachable]).1.
Proof.
  apply (ExecuteAsync_one_identity NoFile (console_registration "farm-42")).
  reflexivity.
Defined.

(** ** The order of a cycle *)

Lemma Task_Delay_last (seconds : Z) (cancelled : bool) :
  (Task_Delay seconds cancelled).2 = Normal ->
  (Task_Delay seconds cancelled).1 = [Delay seconds].
Proof.
  unfold Task_Delay. destruct (delay_in_range seconds); [|done].
  by destruct cancelled.
Qed.

Lemma only_logs_no_post (tr : list Event) (p : IngestPayload) :
  forallb is_log tr = true -> HttpPostIngest p ∉ tr.
Proof.
  intros Hall Hin. apply list_elem_of_In in Hin.
  by apply (proj1 (forallb_forall is_log tr) Hall) in Hin.
Qed.

Lemma UploadData_post_payload (post : nat -> PostReply) (payload p : IngestPayload) :
  HttpPostIngest p ∈ UploadData post payload -> p = payload.
Proof.
  unfold UploadData. case_decide.
  - by intros [=]%list_elem_of_singleton.
  - intros [[=]|[[= ->]|Hin]%elem_of_cons]%elem_of_cons; [done|].
    exfalso. revert Hin. apply only_logs_no_post.
    destruct (post 0%nat) as [|status [body|]]; [done| |];
      by destruct (IsSuccessStatusCode status).
Qed.

(** X9.  Every cycle opens with [LoadConfig] and the status request: its
    trace is the log of [LoadConfig] (log lines only), then the status
    request for the worker's identity, and no second status request
    follows.  So every POST to the ingest endpoint comes after the status
    request, and the payload it carries is the one [FetchBatchData]
    returns at the watermarks of that status reply and the database name
    of the file.  A cycle whose body completes ends with the wait of the
    polling interval. *)
Theorem cycle_try_order (disk : ConfigFile) (farmId : string) (e : CycleEnv) :
  (∃ post,
     (cycle_try disk farmId e).1.1
     = (LoadConfig disk).2 ++ HttpGetStatus farmId :: post
     ∧ List.filter is_status_get post = []
     ∧ ∀ p, HttpPostIngest p ∈ post ->
         ∃ st, (GetSyncStatus (status_reply e) farmId).1 = Some st
               ∧ p = (FetchBatchData (host e) farmId (last_oid st)
                        (last_animal_oid st) (last_lactation_oid st)
                        (last_history_milk_diversion_oid st)
                        (dbName (LoadConfig disk).1)).1)
  ∧ forallb is_log (LoadConfig disk).2 = true
  ∧ ((cycle_try disk farmId e).1.2 = Normal ->
     last (cycle_try disk farmId e).1.1
     = Some (Delay (currentInterval (LoadConfig disk).1))).
Proof.
  unfold cycle_try.
  destruct (LoadConfig disk) as [config log1] eqn:El.
  assert (H1 : forallb is_log log1 = true).
  { unfold LoadConfig in El. destruct disk; by inversion El. }
  destruct (GetSyncStatus (status_reply e) farmId) as [status log2] eqn:Eg.
  assert (H2 : ∃ rest, log2 = HttpGetStatus farmId :: rest
                       ∧ forallb is_log rest = true).
  { unfold GetSyncStatus in Eg. destruct (status_reply e); inversion Eg; eauto. }
  destruct H2 as (rest & -> & Hrest).
  destruct status as [st|]; simpl.
  2:{ split; [|done]. exists rest. split; [done|].
      split; [by apply filter_only_logs|].
      intros p Hin. by apply only_logs_no_post in Hin. }
  pose proof (FetchBatchData_only_logs (host e) farmId (last_oid st)
                (last_animal_oid st) (last_lactation_oid st)
                (last_history_milk_diversion_oid st) (dbName config)) as H3.
  destruct (FetchBatchData _ _ _ _ _ _ _) as [payload log3] eqn:Ef. simpl in H3.
  pose proof (Task_Delay_last (currentInterval config) (stop_in_wait e)) as Hlast.
  destruct (Task_Delay _ _) as [wait completion] eqn:Ew. simpl in *.
  assert (Hwait : List.filter is_status_get wait = []
                  ∧ ∀ p, HttpPostIngest p ∉ wait).
  { unfold Task_Delay in Ew. destruct (delay_in_range _); simpl in Ew;
      [destruct (stop_in_wait e)|]; inversion Ew; subst; split; try done;
      intros p Hin; by repeat (apply elem_of_cons in Hin as [?|Hin]; [done|]);
      by apply elem_of_nil in Hin. }
  destruct Hwait as [Hw1 Hw2].
  split; [|split; [done|]].
  - eexists. split; [reflexivity|]. split.
    + rewrite List.filter_app, (filter_only_logs _ rest) by done. simpl.
      rewrite List.filter_app, (filter_only_logs _ log3) by done.
      rewrite List.filter_app, UploadData_filter by done. simpl. done.
    + intros p Hin. exists st. split; [done|].
      repeat (rewrite elem_of_app in Hin || rewrite elem_of_cons in Hin).
      destruct_or!; try discriminate;
        try (by apply only_logs_no_post in Hin);
        try (by apply Hw2 in Hin).
      apply UploadData_post_payload in Hin. by rewrite Ef.
  - intros ->. rewrite Hlast by done.
    repeat first [rewrite last_app | rewrite last_cons]. done.
Qed.

(** ** Cancellation and the polling interval *)

(** X10.  Once the loop test sees the cancellation request the worker
    does nothing more: the run is what the cycles before it did, and what
    the cloud, the local store or the clock would have answered
    afterwards is never asked for. *)
Theorem loop_stops_at_cancellation (disk : ConfigFile) (farmId : string)
    (before : list CycleEnv) (e : CycleEnv) (after : list CycleEnv) :
  Forall (λ e, stop_at_test e = false ∧ stop_in_wait e = false) before ->
  stop_at_test e = true ->
  loop disk farmId (before ++ e :: after)
  = ((loop disk farmId before).1, LoopEnded).
Proof.
  intros Hbefore Hstop.
  induction Hbefore as [|e0 before [Ht Hw] _ IH]; simpl.
  - unfold iteration. by rewrite Hstop.
  - destruct (iteration_not_cancelled disk farmId e0 Ht Hw) as [Hx _].
    destruct (iteration disk farmId e0) as [tr x]. simpl in Hx. subst x.
    rewrite IH. by destruct (loop disk farmId before).
Qed.

Lemma loop_stops_at_cancellation_witness :
  let cycle := farm_cycle herd_db no_faults 200 watermark_1 accepted in
  let stop := mkCycleEnv (farm_host herd_db no_faults 200) watermark_1 accepted
                true false in
  loop NoFile "farm" ([cycle] ++ stop :: [cycle; cycle])
  = ((loop NoFile "farm" [cycle]).1, LoopEnded).
Proof.
  apply (loop_stops_at_cancellation NoFile "farm"
           [farm_cycle herd_db no_faults 200 watermark_1 accepted]).
  - repeat constructor.
  - reflexivity.
Defined.

(** X11.  A cycle that is not cancelled, got a status and finds an
    interval [Task.Delay] accepts waits exactly once, for the interval
    of the configuration file as it is at that cycle - 1800 seconds when
    the file is absent, unreadable or holds null - and then goes back to
    the loop test. *)
Theorem iteration_waits_configured_interval (disk : ConfigFile)
    (farmId : string) (e : CycleEnv) :
  stop_at_test e = false -> stop_in_wait e = false ->
  (GetSyncStatus (status_reply e) farmId).1 ≠ None ->
  delay_in_range (currentInterval (LoadConfig disk).1) = true ->
  List.filter is_delay (iteration disk farmId e).1
  = [Delay match disk with
           | Json (Some c) => PollingIntervalSeconds c
           | _ => 1800
           end]
  ∧ (iteration disk farmId e).2 = None.
Proof.
  intros Ht Hw Hstatus Hrange.
  assert (Hint : currentInterval (LoadConfig disk).1
                 = match disk with
                   | Json (Some c) => PollingIntervalSeconds c
                   | _ => 1800
                   end).
  { by destruct disk as [| |[c|]]. }
  rewrite <- Hint. unfold iteration. rewrite Ht.
  destruct (cycle_try disk farmId e) as [[tr c] [p|]] eqn:Ec.
  - destruct (cycle_try_filter is_delay disk farmId e tr c p) as
      (st & _ & _ & Hc & Htr); [done|done|done|].
    rewrite UploadData_filter in Htr by done. simpl in Htr.
    unfold Task_Delay in Hc, Htr. rewrite Hrange, Hw in Hc, Htr.
    simpl in Hc, Htr. subst c. done.
  - exfalso. unfold cycle_try in Ec.
    destruct (LoadConfig disk) as [config log1].
    destruct (GetSyncStatus (status_reply e) farmId) as [[st|] log2]; [|done].
    destruct (FetchBatchData _ _ _ _ _ _ _).
    by destruct (Task_Delay _ _).
Qed.

Lemma iteration_waits_configured_interval_witness :
  let e := farm_cycle herd_db no_faults 200 watermark_1 accepted in
  List.filter is_delay (iteration prepared_file "farm" e).1 = [Delay 600]
  ∧ List.filter is_delay (iteration Unreadable "farm" e).1 = [Delay 1800].
Proof.
  split.
  - eapply (iteration_waits_configured_interval prepared_file "farm"
              (farm_cycle herd_db no_faults 200 watermark_1 accepted));
      try reflexivity. discriminate.
  - eapply (iteration_waits_configured_interval Unreadable "farm"
              (farm_cycle herd_db no_faults 200 watermark_1 accepted));
      try reflexivity. discriminate.
Defined.

(** ** Batches without gaps *)

Lemma StronglySorted_lookup_le {A : Type} (R : relation A) (l : list A)
    (i j : nat) (a b : A) :
  StronglySorted R l -> l !! i = Some a -> l !! j = Some b -> (i < j)%nat ->
  R a b.
Proof.
  intros Hs. revert i j. induction Hs as [|x l Hs IH Hall]; intros i j Hi Hj Hij.
  - done.
  - destruct j as [|j]; [lia|]. destruct i as [|i].
    + simpl in Hi, Hj. injection Hi as ->.
      eapply Forall_forall in Hall; [done|]. by eapply list_elem_of_lookup_2.
    + simpl in Hi, Hj. apply (IH i j); [done|done|lia].
Qed.

Lemma NoDup_fmap_elem_inj {A B : Type} (f : A -> B) (l : list A) (x y : A) :
  NoDup (f <$> l) -> x ∈ l -> y ∈ l -> f x = f y -> x = y.
Proof.
  induction l as [|z l IH]; [by intros _ ?%elem_of_nil|].
  rewrite fmap_cons, NoDup_cons. intros [Hz Hnd].
  intros [->|Hx]%elem_of_cons [->|Hy]%elem_of_cons Hf; [done| | |by apply IH].
  - destruct Hz. rewrite Hf. by apply list_elem_of_fmap_2.
  - destruct Hz. rewrite <- Hf. by apply list_elem_of_fmap_2.
Qed.

Lemma top_gapless {A : Type} (key : A -> option Z) (l : list A) :
  NoDup (key <$> l) ->
  gapless key l (take TOP (ORDER_BY key l)).
Proof.
  intros Hnd. split.
  - intros x m Hx Hm Hle.
    pose proof (StronglySorted_merge_sort (by_key key) l) as Hs.
    fold (ORDER_BY key l) in Hs.
    assert (Hx' : x ∈ ORDER_BY key l) by by rewrite ORDER_BY_Permutation.
    apply list_elem_of_lookup in Hx' as [i Hi].
    apply elem_of_take in Hm as (j & Hj & Hlt).
    destruct (decide (i < TOP)%nat) as [Hi'|Hi'].
    { apply elem_of_take. eauto. }
    assert (Hmx : by_key key m x).
    { eapply (StronglySorted_lookup_le _ _ j i); [done..|lia]. }
    assert (Heq : key x = key m).
    { unfold by_key in Hmx. destruct (key x), (key m); simpl in *;
        try done; f_equal; lia. }
    assert (x = m) as ->.
    { eapply (NoDup_fmap_elem_inj key l); [done|done| |done].
      rewrite <- ORDER_BY_Permutation. by eapply list_elem_of_lookup_2. }
    apply elem_of_take. eauto.
  - intros Hlen x Hx. rewrite length_take, ORDER_BY_length in Hlen.
    rewrite take_ge by (rewrite ORDER_BY_length; lia).
    by rewrite ORDER_BY_Permutation.
Qed.

(** X12.  When the server is queried, a batch whose own read completes
    and whose candidate rows (the table rows above the watermark) have
    pairwise different identifiers has no gaps: every candidate whose
    identifier is not above the identifier of some row of the batch is in
    the batch, and a batch of fewer than 2000 rows holds every candidate.
    This holds for the session batch when its watermark is above 0, and
    for the diversion batch at every watermark and whatever the session
    stream does.  A watermark moved to the largest identifier of the
    batch skips no row. *)
Theorem FetchBatchData_batch_gapless (h : Host) (farmId : string)
    (ws wa wl wd : Z) (databaseName : string) (db : Database) :
  queries_server h databaseName ->
  databases (sql h) !! databaseName = Some db ->
  let p := (FetchBatchData h farmId ws wa wl wd databaseName).1 in
  (∀ sess,
     SessionMilkYield db = Some sess ->
     fault_sessions (reader_faults (sql h)) = None ->
     0 < ws ->
     NoDup (DelproSessionsMilkYield.OID
              <$> filter (λ s, gt_null (DelproSessionsMilkYield.OID s) ws) sess) ->
     gapless DelproSessionsMilkYield.OID
       (filter (λ s, gt_null (DelproSessionsMilkYield.OID s) ws) sess)
       (sessions_milk_yield p))
  ∧ (∀ divs,
       HistoryMilkDiversionInfo db = Some divs ->
       fault_diversions (reader_faults (sql h)) = None ->
       NoDup (DelproHistoryMilkDiversionInfo.OID
                <$> filter (λ d, wd < DelproHistoryMilkDiversionInfo.OID d) divs) ->
       gapless (λ d, Some (DelproHistoryMilkDiversionInfo.OID d))
         (filter (λ d, wd < DelproHistoryMilkDiversionInfo.OID d) divs)
         (history_milk_diversion_info p)).
Proof.
  intros Hq Hdb p.
  destruct (FetchBatchData_fields h farmId ws wa wl wd databaseName Hq)
    as (_ & _ & _ & _ & Esess & _ & Ediv).
  fold p in Esess, Ediv. rewrite Hdb in Esess, Ediv. split.
  - intros sess Hs Fs Hws Hns.
    rewrite fetch_sessions_incremental_rows, Fs in Esess by done.
    unfold sqlSessions_incremental in Esess. simpl in Esess.
    rewrite Hs in Esess. simpl in Esess. rewrite Esess.
    by apply top_gapless.
  - intros divs Hd Fd Hnd.
    rewrite fetch_diversions_rows, Fd in Ediv.
    unfold sqlDiversion in Ediv. simpl in Ediv.
    rewrite Hd in Ediv. simpl in Ediv. rewrite Ediv.
    apply top_gapless.
    set (cands := filter _ divs) in *.
    change (NoDup ((Some ∘ DelproHistoryMilkDiversionInfo.OID) <$> cands)).
    rewrite list_fmap_compose. by apply (NoDup_fmap_2 Some).
Qed.

(** The reference herd at watermark 1, and its diversion batch in a
    cycle whose watermarks are all 0. *)
Lemma FetchBatchData_batch_gapless_witness :
  (let p := (FetchBatchData (farm_host herd_db no_faults 200) "farm" 1 1 1 1 "DelPro").1 in
   gapless DelproSessionsMilkYield.OID [session 3] (sessions_milk_yield p)
   ∧ gapless (λ d, Some (DelproHistoryMilkDiversionInfo.OID d))
       [diversion 21; diversion 20] (history_milk_diversion_info p))
  ∧ (let p := (FetchBatchData (farm_host herd_db no_faults 200) "farm" 0 0 0 0 "DelPro").1 in
     gapless (λ d, Some (DelproHistoryMilkDiversionInfo.OID d))
       [diversion 21; diversion 20] (history_milk_diversion_info p)).
Proof.
  destruct (FetchBatchData_batch_gapless (farm_host herd_db no_faults 200) "farm"
              1 1 1 1 "DelPro" herd_db) as (Hs & Hd);
    [split; reflexivity | reflexivity |].
  destruct (FetchBatchData_batch_gapless (farm_host herd_db no_faults 200) "farm"
              0 0 0 0 "DelPro" herd_db) as (_ & Hd0);
    [split; reflexivity | reflexivity |].
  split; [split|].
  - apply (Hs [session 3; session 1]); [reflexivity | reflexivity | lia |].
    apply (bool_decide_unpack _). by vm_compute.
  - apply (Hd [diversion 21; diversion 20]); [reflexivity | reflexivity |].
    apply (bool_decide_unpack _). by vm_compute.
  - apply (Hd0 [diversion 21; diversion 20]); [reflexivity | reflexivity |].
    apply (bool_decide_unpack _). by vm_compute.
Defined.

(** ** Watermarks at the edges *)

(** X13.  A negative session watermark silences the session stream: the
    command refers to a parameter that is added only for a positive
    watermark, so it raises, and whatever the table holds the session
    batch and with it the voluntary batch are empty. *)
Theorem negative_session_watermark_silences (h : Host) (farmId : string)
    (ws wa wl wd : Z) (databaseName : string) :
  ws < 0 ->
  IsMockMode (Some (GetConnectionString h databaseName).1) = false ->
  let p := (FetchBatchData h farmId ws wa wl wd databaseName).1 in
  sessions_milk_yield p = [] ∧ voluntary_sessions_milk_yield p = [].
Proof.
  intros Hws Hm p. subst p.
  destruct (can_open (sql h) (GetConnectionString h databaseName).1) eqn:Ho.
  2:{ by rewrite FetchBatchData_unopened. }
  destruct (FetchBatchData_fields h farmId ws wa wl wd databaseName (conj Hm Ho))
    as (_ & _ & _ & _ & Es & Ev & _).
  rewrite fetch_sessions_negative_rows in Es, Ev by done.
  by rewrite Es, Ev.
Qed.

Lemma negative_session_watermark_silences_witness :
  let p := (FetchBatchData (farm_host herd_db no_faults 200) "farm"
              (-1) 1 1 1 "DelPro").1 in
  SessionMilkYield herd_db = Some [session 3; session 1]
  ∧ sessions_milk_yield p = [] ∧ voluntary_sessions_milk_yield p = []
  ∧ basic_animals p = [animal 6 (Some 900); animal 7 None].
Proof.
  split; [reflexivity|].
  destruct (negative_session_watermark_silences
              (farm_host herd_db no_faults 200) "farm" (-1) 1 1 1 "DelPro")
    as [Hs Hv]; [lia|reflexivity|].
  split; [exact Hs|]. split; [exact Hv|reflexivity].
Defined.



(** ** The reader loop *)

(** X15.  A reader loop keeps the rows it mapped before the first row its
    mapping helper raises on and stops there: it is the reader of the
    extraction blocks with the fault at the index of the first
    unmappable row, for every list [result] that holds the record of each
    mappable row at the row's place. *)
Theorem reader_loop_stops_at_first_unmappable {Raw A : Type}
    (Map : Raw -> option A) (rows : list Raw) (result : list A) :
  Forall2 (λ r a, ∀ a', Map r = Some a' -> a' = a) rows result ->
  reader_loop Map rows = run_reader (first_unmappable Map rows) (Some result).
Proof.
  induction 1 as [|r a rows result Hra _ IH]; [done|]. simpl.
  destruct (Map r) as [a'|] eqn:Hr.
  - rewrite (Hra a' eq_refl), IH. unfold run_reader.
    destruct (first_unmappable Map rows) as [k|]; simpl; [|done].
    destruct (decide (k < length result)%nat);
      [rewrite decide_True by lia|rewrite decide_False by lia]; done.
  - unfold run_reader. rewrite decide_True by (simpl; lia). done.
Qed.

(** Rows whose OID column may be NULL, mapped by [Convert.ToInt64], which
    raises on NULL: the third row stops the loop after two rows. *)
Lemma reader_loop_stops_at_first_unmappable_witness :
  reader_loop (fmap diversion) [Some 20; Some 21; None; Some 23]
  = ([diversion 20; diversion 21], true).
Proof.
  rewrite (reader_loop_stops_at_first_unmappable (fmap diversion)
             [Some 20; Some 21; None; Some 23]
             [diversion 20; diversion 21; diversion 0; diversion 23]).
  - reflexivity.
  - repeat constructor; by intros a' [= <-].
Defined.

(** ** A save that fails *)

(** X16.  When the registration succeeds but the file cannot be written,
    the worker still starts with the new identity and the file stays as
    it was: the identity is lost with the process, and a later start-up
    with nothing configured and no console returns before the loop. *)
Theorem unsaved_registration_is_lost (disk : ConfigFile) (s : StartupEnv)
    (id : string) :
  explicit_identity s = None ->
  persisted_identity disk = None ->
  registered_identity s = Some id ->
  file_writable s = false ->
  let disk' := disk_after disk (resolve_farm_id disk s).2 in
  (resolve_farm_id disk s).1 = Some id
  ∧ disk' = disk
  ∧ (resolve_farm_id disk' unattended_start).1 = None.
Proof.
  intros He Hp Hr Hw disk'.
  destruct (resolve_farm_id_registration disk s id He Hp Hr) as [Hid Hdisk].
  rewrite Hw in Hdisk. subst disk'. rewrite Hdisk.
  split; [done|]. split; [done|].
  rewrite resolve_farm_id_result. unfold identity_by_order. by rewrite Hp.
Qed.

Lemma unsaved_registration_is_lost_witness :
  let s := mkStartupEnv ∅ false (Some "Hill Farm")
             (RegisterResponse 200 (Some "farm-42")) false in
  (resolve_farm_id NoFile s).1 = Some "farm-42"
  ∧ (resolve_farm_id (disk_after NoFile (resolve_farm_id NoFile s).2)
       unattended_start).1 = None.
Proof.
  destruct (unsaved_registration_is_lost NoFile
              (mkStartupEnv ∅ false (Some "Hill Farm")
                 (RegisterResponse 200 (Some "farm-42")) false) "farm-42")
    as (Hid & _ & Hlost); try reflexivity.
  split; [exact Hid | exact Hlost].
Defined.

(** ** The size of a payload *)

Lemma run_reader_length {A : Type} (fault : option nat) (cmd : option (list A))
    (n : nat) :
  (∀ r, cmd = Some r -> (length r ≤ n)%nat) ->
  (length (run_reader fault cmd).1 ≤ n)%nat.
Proof.
  intros Hcmd. destruct cmd as [r|]; simpl; [|lia].
  specialize (Hcmd r eq_refl). destruct fault as [k|]; [|done].
  case_decide; simpl; [rewrite length_take; lia|done].
Qed.

Lemma run_reader_Sorted {A : Type} (R : relation A) (fault : option nat)
    (cmd : option (list A)) :
  (∀ r, cmd = Some r -> Sorted R r) -> Sorted R (run_reader fault cmd).1.
Proof.
  intros Hcmd. destruct cmd as [r|]; simpl; [|constructor].
  specialize (Hcmd r eq_refl). destruct fault as [k|]; [|done].
  case_decide; simpl; [by apply Sorted_take|done].
Qed.

Lemma top_ordered_take {A : Type} (key : A -> option Z) (t : option (list A))
    (sel : list A -> list A) :
  top_ordered key (l ← t; Some (take TOP (ORDER_BY key (sel l)))).
Proof.
  intros r. destruct t as [l|]; simpl; [|done]. intros [= <-].
  split; [rewrite top_length; lia|apply top_Sorted].
Qed.

Lemma session_command_top_ordered (db : option Database) (oneYearAgo : DateTime)
    (ws : Z) :
  top_ordered DelproSessionsMilkYield.OID (session_command db oneYearAgo ws).
Proof.
  unfold session_command. case_decide.
  - apply (top_ordered_take _ _ (filter _)).
  - case_decide; [|done]. apply (top_ordered_take _ _ (filter _)).
Qed.

Lemma sqlLact_top_ordered (db : option Database) (oneYearAgo : DateTime) (wl : Z) :
  top_ordered (λ l, Some (DelproAnimalsLactationsSummary.OID l))
    (sqlLact db oneYearAgo wl).
Proof.
  unfold sqlLact. intros r.
  destruct (db ≫= AnimalLactationSummary) as [ls|]; simpl; [|done].
  destruct (db ≫= BasicAnimal) as [animals|]; simpl; [|done].
  intros [= <-]. split; [rewrite top_length; lia|apply top_Sorted].
Qed.

(** X17.  Whatever the host - mock mode, a connection that does not
    open, faults in any reader - the basic-animal, lactation, session and
    diversion lists of a payload have at most 2000 rows each; and when
    the server is queried each of them is in ascending order of
    identifier. *)
Theorem FetchBatchData_payload_bounded (h : Host) (farmId : string)
    (ws wa wl wd : Z) (databaseName : string) :
  let p := (FetchBatchData h farmId ws wa wl wd databaseName).1 in
  ((length (basic_animals p) ≤ TOP)%nat
   ∧ (length (lactations_summary p) ≤ TOP)%nat
   ∧ (length (sessions_milk_yield p) ≤ TOP)%nat
   ∧ (length (history_milk_diversion_info p) ≤ TOP)%nat)
  ∧ (IsMockMode (Some (GetConnectionString h databaseName).1) = false ->
       Sorted (by_key (λ a, Some (DelproBasicAnimal.OID a))) (basic_animals p)
       ∧ Sorted (by_key (λ l, Some (DelproAnimalsLactationsSummary.OID l)))
           (lactations_summary p)
       ∧ Sorted (by_key DelproSessionsMilkYield.OID) (sessions_milk_yield p)
       ∧ Sorted (by_key (λ d, Some (DelproHistoryMilkDiversionInfo.OID d)))
           (history_milk_diversion_info p)).
Proof.
  intros p. subst p.
  destruct (IsMockMode (Some (GetConnectionString h databaseName).1)) eqn:Hm.
  { split; [|done]. rewrite FetchBatchData_mock by done.
    unfold FetchMockIncrementalBatch, TOP. case_decide; simpl; lia. }
  destruct (can_open (sql h) (GetConnectionString h databaseName).1) eqn:Ho.
  2:{ rewrite FetchBatchData_unopened by done. simpl.
      split; [lia|]. intros _. repeat split; constructor. }
  destruct (FetchBatchData_fields h farmId ws wa wl wd databaseName (conj Hm Ho))
    as (_ & Ea & _ & El & Es & _ & Ed).
  rewrite fetch_animals_rows in Ea. rewrite fetch_lactations_rows in El.
  rewrite fetch_sessions_rows in Es. rewrite fetch_diversions_rows in Ed.
  rewrite Ea, El, Es, Ed.
  pose proof (top_ordered_take (λ a, Some (DelproBasicAnimal.OID a))
                (databases (sql h) !! databaseName ≫= BasicAnimal)
                (filter (λ a, still_in_herd (one_year_ago h) a
                              ∧ wa < DelproBasicAnimal.OID a))) as Ha.
  pose proof (sqlLact_top_ordered (databases (sql h) !! databaseName)
                (one_year_ago h) wl) as Hl.
  pose proof (session_command_top_ordered (databases (sql h) !! databaseName)
                (one_year_ago h) ws) as Hs.
  pose proof (top_ordered_take (λ d, Some (DelproHistoryMilkDiversionInfo.OID d))
                (databases (sql h) !! databaseName ≫= HistoryMilkDiversionInfo)
                (filter (λ d, wd < DelproHistoryMilkDiversionInfo.OID d))) as Hd.
  split; [|intros _]; repeat split;
    try (apply run_reader_length; intros r Hr);
    try (apply run_reader_Sorted; intros r Hr);
    first [by apply Ha in Hr as [? ?] | by apply Hl in Hr as [? ?]
          | by apply Hs in Hr as [? ?] | by apply Hd in Hr as [? ?]].
Qed.
